(** * Netflix titles analysis: a shallow embedding of [netflix_analysis.py]

    The script loads a CSV file into a pandas data frame, cleans it, and runs
    five independent report stages over the cleaned frame.  The data frame is
    embedded as a list of rows whose cells are [option] values ([None] is
    pandas' NaN / NaT); the pandas operations the script calls are embedded
    as list functions, one per call, and the functions of the script are
    built from them in the order of the source lines.  What a call leaves to
    the installed pandas (the order of equal counts, the text of an error) is
    a parameter of the script. *)

From Stdlib Require Import ZArith QArith Ascii.
From stdpp Require Import base tactics option list sets sorting strings.

Local Open Scope Z_scope.
#[local] Set Warnings "-clear-no-such-hyp".

(** ** Python string methods used through the [.str] accessor *)

Module Str.

(** Strings are byte strings holding UTF-8.  Python's [str.isspace] is true
    of TAB, LF, VT, FF, CR, the four separators FS, GS, RS, US and the space,
    which take one byte; of U+0085 and U+00A0, which take two; and of U+1680,
    U+2000 to U+200A, U+2028, U+2029, U+202F, U+205F and U+3000, which take
    three.  Each is given by its bytes. *)
Definition isspace (c : ascii) : bool :=
  match c with
  | "009" | "010" | "011" | "012" | "013"
  | "028" | "029" | "030" | "031" | " " => true
  | _ => false
  end%char.

Definition isspace2 (c1 c2 : ascii) : bool :=
  bool_decide ((nat_of_ascii c1, nat_of_ascii c2)
               ∈ [(194, 133); (194, 160)]%nat).

Definition isspace3 (c1 c2 c3 : ascii) : bool :=
  bool_decide ((nat_of_ascii c1, nat_of_ascii c2, nat_of_ascii c3)
               ∈ [ (225, 154, 128);
                   (226, 128, 128); (226, 128, 129); (226, 128, 130);
                   (226, 128, 131); (226, 128, 132); (226, 128, 133);
                   (226, 128, 134); (226, 128, 135); (226, 128, 136);
                   (226, 128, 137); (226, 128, 138);
                   (226, 128, 168); (226, 128, 169); (226, 128, 175);
                   (226, 129, 159); (227, 128, 128) ]%nat).

Fixpoint rev_onto (acc s : string) : string :=
  match s with
  | EmptyString => acc
  | String c s' => rev_onto (String c acc) s'
  end.

(** Scanning white space from one end of a string.  [one], [two] and
    [three] say which one, two and three bytes, in the order they are met,
    are a white space character. *)
Section Front.
Context (one : ascii → bool) (two : ascii → ascii → bool)
  (three : ascii → ascii → ascii → bool).

(** What is left of [s] after the white space characters it starts with. *)
Fixpoint strip_front (s : string) : string :=
  match s with
  | EmptyString => EmptyString
  | String c1 r1 =>
      if one c1 then strip_front r1
      else match r1 with
           | String c2 r2 =>
               if two c1 c2 then strip_front r2
               else match r2 with
                    | String c3 r3 =>
                        if three c1 c2 c3 then strip_front r3 else s
                    | EmptyString => s
                    end
           | EmptyString => s
           end
  end.

(** [s] is made of white space characters only (or is empty). *)
Fixpoint only_space (s : string) : bool :=
  match s with
  | EmptyString => true
  | String c1 r1 =>
      if one c1 then only_space r1
      else match r1 with
           | String c2 r2 =>
               if two c1 c2 then only_space r2
               else match r2 with
                    | String c3 r3 => three c1 c2 c3 && only_space r3
                    | EmptyString => false
                    end
           | EmptyString => false
           end
  end.

(** [s] starts with a white space character. *)
Definition starts_with_space (s : string) : bool :=
  match s with
  | EmptyString => false
  | String c1 r1 =>
      one c1 ||
      match r1 with
      | String c2 r2 =>
          two c1 c2 ||
          match r2 with
          | String c3 _ => three c1 c2 c3
          | EmptyString => false
          end
      | EmptyString => false
      end
  end.

End Front.

(** [s.lstrip()], [s.rstrip()] and [s.strip()].  The white space a string
    ends with is the white space its bytes start with when they are read
    from the end, each character's bytes then coming last byte first. *)
Definition lstrip (s : string) : string :=
  strip_front isspace isspace2 isspace3 s.

Definition rstrip (s : string) : string :=
  rev_onto EmptyString
    (strip_front isspace (λ c2 c1, isspace2 c1 c2)
       (λ c3 c2 c1, isspace3 c1 c2 c3) (rev_onto EmptyString s)).

Definition strip (s : string) : string := rstrip (lstrip s).

(** Only white space (or nothing). *)
Definition blank (s : string) : bool :=
  only_space isspace isspace2 isspace3 s.

(** [s] starts, or ends, with a white space character. *)
Definition startswith_space (s : string) : bool :=
  starts_with_space isspace isspace2 isspace3 s.

Definition endswith_space (s : string) : bool :=
  starts_with_space isspace (λ c2 c1, isspace2 c1 c2)
    (λ c3 c2 c1, isspace3 c1 c2 c3) (rev_onto EmptyString s).

(** The string with the given bytes. *)
Definition of_bytes (l : list nat) : string :=
  foldr (λ n s, String (ascii_of_nat n) s) EmptyString l.

Fixpoint startswith (p s : string) : bool :=
  match p, s with
  | EmptyString, _ => true
  | String a p', String b s' => if decide (a = b) then startswith p' s' else false
  | String _ _, EmptyString => false
  end.

(** The scanner behind [split]: [skip] counts the characters of a
    separator occurrence that are still to be passed over, [acc] holds the
    current piece, last character first. *)
Fixpoint split_scan (sep : string) (skip : nat) (acc s : string) : list string :=
  match s with
  | EmptyString => [rev_onto EmptyString acc]
  | String c s' =>
      match skip with
      | S k => split_scan sep k acc s'
      | O =>
          if startswith sep s
          then rev_onto EmptyString acc
               :: split_scan sep (Nat.pred (String.length sep)) EmptyString s'
          else split_scan sep O (String c acc) s'
      end
  end.

(** [s.split(sep)] for a non-empty separator: every non-overlapping
    occurrence, leftmost first, is a cut. *)
Definition split (sep s : string) : list string :=
  split_scan sep O EmptyString s.

Fixpoint replace_scan (old new : string) (skip : nat) (s : string) : string :=
  match s with
  | EmptyString => EmptyString
  | String c s' =>
      match skip with
      | S k => replace_scan old new k s'
      | O =>
          if startswith old s
          then new +:+ replace_scan old new (Nat.pred (String.length old)) s'
          else String c (replace_scan old new O s')
      end
  end.

(** [s.replace(old, new)] for a non-empty [old]: every non-overlapping
    occurrence, leftmost first, is replaced. *)
Definition replace (old new s : string) : string :=
  replace_scan old new O s.

(** [s.removesuffix(suffix)]: only used to state what removing a trailing
    unit would be. *)
Fixpoint removesuffix (suffix s : string) : string :=
  if decide (s = suffix) then EmptyString
  else match s with
       | EmptyString => EmptyString
       | String c s' => String c (removesuffix suffix s')
       end.

(** [sep.join(pieces)] *)
Fixpoint join (sep : string) (pieces : list string) : string :=
  match pieces with
  | [] => EmptyString
  | [x] => x
  | x :: rest => x +:+ sep +:+ join sep rest
  end.

(** [p in s]: [p] starts somewhere in [s]. *)
Fixpoint occurs (p s : string) : bool :=
  startswith p s ||
  match s with
  | EmptyString => false
  | String _ s' => occurs p s'
  end.

(** [p] starts at no position of the piece held in [acc] (last character
    first) when the piece is read with [s] after it. *)
Fixpoint starts_nowhere (p acc s : string) : Prop :=
  match acc with
  | EmptyString => True
  | String c acc' =>
      startswith p (String c s) = false ∧ starts_nowhere p acc' (String c s)
  end.

End Str.

(** ** The data model *)

Inductive Month :=
  | January | February | March | April | May | June
  | July | August | September | October | November | December.

(** A pandas [Timestamp], as far as the script reads it: the calendar date.
    The time of day is never read and is left out; the dates are dates
    without a UTC offset, as the catalogue has them, so that the parsed
    column is a datetime column. *)
Record Timestamp := { ts_year : Z; ts_month : Month; ts_day : Z }.

(** The dtype of a column the script reads as text: [object] for a column
    of strings, [float64] for the column [pd.read_csv] makes of cells that
    are all empty. *)
Inductive dtype := object | float64.

#[global] Instance dtype_eq_dec : EqDecision dtype.
Proof. solve_decision. Defined.

(** One row of the frame returned by [pd.read_csv]: the columns the script
    names.  An empty CSV cell is read as NaN, here [None].  The cells of the
    text columns are strings: the frames are those in which [pd.read_csv]
    found text, or nothing at all, in each of these columns (a column in
    which it found only numbers has cells that are not of this type). *)
Module Raw.
Record row := mk {
  type : option string;
  director : option string;
  cast : option string;
  country : option string;
  date_added : option string;
  release_year : option Z;
  rating : option string;
  duration : option string;
  listed_in : option string
}.
Abbreviation frame := (list row).
End Raw.

(** One row of the frame returned by [load_and_clean_data]: [date_added] has
    become a datetime column and two columns have been added.  The frame
    itself is its rows together with the dtype of the two columns that are
    read through [.str] later on, which no line before changes. *)
Module Clean.
Record row := mk {
  type : option string;
  director : option string;
  cast : option string;
  country : option string;
  date_added : option Timestamp;
  release_year : option Z;
  rating : option string;
  duration : option string;
  listed_in : option string;
  year_added : option Z;
  month_added : option string
}.
Abbreviation frame := (list row).
Record table := {
  rows : frame;
  listed_in_dtype : dtype;
  duration_dtype : dtype
}.
End Clean.

(** ** The pandas operations the script calls *)

Module Pandas.

(** The dtype [pd.read_csv] gives a text column: [float64] when the file has
    rows and every cell of the column is empty, [object] when the column
    holds a string, and also when the file has no row. *)
Definition read_dtype (cells : list (option string)) : dtype :=
  if decide (cells = [] ∨ Exists is_Some cells) then object else float64.

(** [Series.fillna(value)] on one cell. *)
Definition fillna {A} (value : A) (cell : option A) : option A :=
  match cell with
  | Some v => Some v
  | None => Some value
  end.

(** [Series.isnull().sum()] *)
Definition isnull_sum {A} (s : list (option A)) : nat :=
  length (filter (λ c, c = None) s).

(** [Series.dropna()] *)
Definition dropna {A} (s : list (option A)) : list A := omap id s.

(** [Series.head(n)] *)
Definition head {A} (n : nat) (s : list A) : list A := take n s.

(** [Timestamp.month_name()] in the default (English) locale. *)
Definition month_name (m : Month) : string :=
  match m with
  | January => "January" | February => "February" | March => "March"
  | April => "April" | May => "May" | June => "June"
  | July => "July" | August => "August" | September => "September"
  | October => "October" | November => "November" | December => "December"
  end.

(** [Series.dt.year] and [Series.dt.month_name()] on one cell: NaT gives NaN. *)
Definition dt_year (cell : option Timestamp) : option Z := ts_year <$> cell.
Definition dt_month_name (cell : option Timestamp) : option string :=
  (λ t, month_name (ts_month t)) <$> cell.

(** [Series.str.strip()], [Series.str.replace(old, new, regex=False)] and
    [Series.str.split(pat)] on one cell: NaN stays NaN.  The pattern [", "]
    has no regular-expression metacharacter, so splitting on it as a pattern
    is splitting on it as a literal. *)
Definition str_strip (cell : option string) : option string := Str.strip <$> cell.
Definition str_replace (old new : string) (cell : option string) : option string :=
  Str.replace old new <$> cell.
Definition str_split (pat : string) (cell : option string) : option (list string) :=
  Str.split pat <$> cell.

(** [Series.str.split(pat, expand=True).stack()]: [expand=True] lays the
    pieces of each row out in columns, padding short rows with nulls;
    [stack] reads the cells row by row and leaves the nulls out.  What
    remains is every piece of every non-null cell, in row order. *)
Definition split_expand_stack (pat : string) (s : list (option string)) : list string :=
  mjoin (dropna (str_split pat <$> s)).

(** The order of a counts Series that is sorted by decreasing count. *)
Definition descending {K} (a b : K * nat) : Prop := (b.2 ≤ a.2)%nat.

(** What the script leaves to the installed pandas.  [sort_values] is
    [Series.sort_values(ascending=False)] on a tally: the entries in
    decreasing order of count.  Its sort is not a stable one, and which of
    two entries with equal counts comes first is settled inside the library,
    for every tally in one way.  [str_accessor_message] is the text of the
    [AttributeError] that [.str] raises on a column that is not text. *)
Class Library := {
  sort_values : ∀ K : Type, list (K * nat) → list (K * nat);
  sort_values_perm : ∀ (K : Type) (l : list (K * nat)), sort_values K l ≡ₚ l;
  sort_values_sorted : ∀ (K : Type) (l : list (K * nat)),
    StronglySorted descending (sort_values K l);
  str_accessor_message : string
}.
Arguments sort_values {_ K} l.
Arguments sort_values_perm {_ K} l.
Arguments sort_values_sorted {_ K} l.

Section Counting.
Context {lib : Library} {K : Type} `{EqDecision K}.

Definition count_of (x : K) (l : list K) : nat :=
  length (filter (λ y, y = x) l).

(** [Series.unique()]: the distinct values in order of first appearance. *)
Fixpoint unique (l : list K) : list K :=
  match l with
  | [] => []
  | x :: l' => x :: filter (λ y, y ≠ x) (unique l')
  end.

(** The tally [value_counts] sorts: each distinct value, in order of first
    appearance, with its number of occurrences. *)
Definition tally (l : list K) : list (K * nat) :=
  (λ x, (x, count_of x l)) <$> unique l.

(** [Series.value_counts()]: nulls are left out ([dropna=True]), the
    result is sorted by decreasing count ([sort=True], [ascending=False]). *)
Definition value_counts (s : list (option K)) : list (K * nat) :=
  sort_values (tally (dropna s)).

(** The count a counts Series shows for a key, 0 for a key it does not
    have. *)
Definition count_in (vc : list (K * nat)) (k : K) : nat :=
  match list_find (λ e, e.1 = k) vc with
  | Some (_, e) => e.2
  | None => 0%nat
  end.

End Counting.

(** [df.groupby(key).size()] for an integer key: rows with a null key are
    left out ([dropna=True]) and the groups come in increasing key order
    ([sort=True]). *)
Definition groupby_size (keys : list (option Z)) : list (Z * nat) :=
  let present := dropna keys in
  (λ k, (k, count_of k present)) <$> merge_sort Z.le (unique present).

End Pandas.

(** ** Effects: the console, the chart files, and exceptions *)

(** What [print] is given.  Text is kept as text; a printed Series is kept
    as its entries in printed order, since how pandas lays a Series out in
    characters is not part of the script. *)
Inductive printed :=
  | Text (s : string)
  | NullCounts (per_column : list (string * nat))
  | CountsByName (entries : list (string * nat))
  | CountsByYear (entries : list (Z * nat)).

(** What a chart is drawn from. *)
Inductive chart :=
  | Countplot (categories : list (string * nat))
  | Lineplot (points : list (Z * nat))
  | Barplot (bars : list (string * nat))
  | Histplot (values : list Q)
  | CountplotOrdered (bars : list (Z * nat)).

Record artifact := { filename : string; drawn : chart }.

(** The exceptions, as far as the handlers of [main] tell them apart:
    [FileNotFoundError], any other subclass of [Exception], and what is
    below [BaseException] only (such as [KeyboardInterrupt]).  Each carries
    its [str(e)]. *)
Inductive exn :=
  | FileNotFoundError (msg : string)
  | OtherException (msg : string)
  | NotAnException (msg : string).

Inductive outcome (A : Type) :=
  | Returned (a : A)
  | Raised (e : exn).
Arguments Returned {A} a.
Arguments Raised {A} e.

Record world := { stdout : list printed; files : list artifact }.

Definition M (A : Type) : Type := world → outcome A * world.

#[global] Instance M_ret : MRet M := λ A a w, (Returned a, w).
#[global] Instance M_bind : MBind M := λ A B f m w,
  match m w with
  | (Returned a, w') => f a w'
  | (Raised e, w') => (Raised e, w')
  end.

Definition print (p : printed) : M unit := λ w,
  (Returned (), {| stdout := stdout w ++ [p]; files := files w |}).

Definition raise {A} (e : exn) : M A := λ w, (Raised e, w).

Definition nl : string := String "010"%char EmptyString.

(** ** The script *)

Section Script.

(** The collaborators of the script.  [lib] is the installed pandas, as far
    as the script leaves something to it; [to_datetime] is
    [pd.to_datetime(_, format='mixed', errors='coerce')] on one string, which
    with [format='mixed'] reads every string on its own and with
    [errors='coerce'] answers NaT where it cannot; [to_numeric] is
    [pd.to_numeric(_, errors='coerce')] on one string; [read_csv] is what
    [pd.read_csv] does on a path; [render] is what drawing and saving a chart
    does: nothing, or an exception before the file is written. *)
Context {lib : Pandas.Library}.
Context (to_datetime : string → option Timestamp).
Context (to_numeric : string → option Q).
Context (read_csv : string → exn + Raw.frame).
Context (render : artifact → option exn).

Definition pd_read_csv (filepath : string) : M Raw.frame :=
  match read_csv filepath with
  | inl e => raise e
  | inr df => mret df
  end.

(** Taking the [.str] accessor of a column (lines 33, 74 and 95): a column
    of dtype [object] has it; on any other the attribute lookup raises
    [AttributeError], which is an [Exception] and not a
    [FileNotFoundError]. *)
Definition str_accessor (d : dtype) : M unit :=
  match d with
  | object => mret ()
  | float64 => raise (OtherException Pandas.str_accessor_message)
  end.

(** Drawing a chart and [plt.savefig(name)]. *)
Definition savefig (name : string) (c : chart) : M unit := λ w,
  let a := {| filename := name; drawn := c |} in
  match render a with
  | Some e => (Raised e, w)
  | None => (Returned (), {| stdout := stdout w; files := files w ++ [a] |})
  end.

(** [df.isnull().sum()] on the frame as read and on the cleaned frame. *)
Definition raw_isnull_sum (df : Raw.frame) : list (string * nat) :=
  [ ("type", Pandas.isnull_sum (Raw.type <$> df));
    ("director", Pandas.isnull_sum (Raw.director <$> df));
    ("cast", Pandas.isnull_sum (Raw.cast <$> df));
    ("country", Pandas.isnull_sum (Raw.country <$> df));
    ("date_added", Pandas.isnull_sum (Raw.date_added <$> df));
    ("release_year", Pandas.isnull_sum (Raw.release_year <$> df));
    ("rating", Pandas.isnull_sum (Raw.rating <$> df));
    ("duration", Pandas.isnull_sum (Raw.duration <$> df));
    ("listed_in", Pandas.isnull_sum (Raw.listed_in <$> df)) ].

Definition clean_isnull_sum (df : Clean.frame) : list (string * nat) :=
  [ ("type", Pandas.isnull_sum (Clean.type <$> df));
    ("director", Pandas.isnull_sum (Clean.director <$> df));
    ("cast", Pandas.isnull_sum (Clean.cast <$> df));
    ("country", Pandas.isnull_sum (Clean.country <$> df));
    ("date_added", Pandas.isnull_sum (Clean.date_added <$> df));
    ("release_year", Pandas.isnull_sum (Clean.release_year <$> df));
    ("rating", Pandas.isnull_sum (Clean.rating <$> df));
    ("duration", Pandas.isnull_sum (Clean.duration <$> df));
    ("listed_in", Pandas.isnull_sum (Clean.listed_in <$> df));
    ("year_added", Pandas.isnull_sum (Clean.year_added <$> df));
    ("month_added", Pandas.isnull_sum (Clean.month_added <$> df)) ].

(** Lines 25-27: [df[c].fillna('Unknown', inplace=True)] for the columns
    director, cast and country, with the behaviour the script relies on: the
    column of the frame itself is filled. *)
Definition fill_missing (r : Raw.row) : Raw.row :=
  {| Raw.type := Raw.type r;
     Raw.director := Pandas.fillna "Unknown" (Raw.director r);
     Raw.cast := Pandas.fillna "Unknown" (Raw.cast r);
     Raw.country := Pandas.fillna "Unknown" (Raw.country r);
     Raw.date_added := Raw.date_added r;
     Raw.release_year := Raw.release_year r;
     Raw.rating := Raw.rating r;
     Raw.duration := Raw.duration r;
     Raw.listed_in := Raw.listed_in r |}.

(** Line 30: [df.dropna(subset=['date_added', 'rating'], inplace=True)]
    keeps the rows in which both cells are present. *)
Definition has_date_and_rating (r : Raw.row) : Prop :=
  is_Some (Raw.date_added r) ∧ is_Some (Raw.rating r).

#[global] Instance has_date_and_rating_dec r : Decision (has_date_and_rating r).
Proof. unfold has_date_and_rating. apply _. Defined.

Definition drop_missing (df : Raw.frame) : Raw.frame :=
  filter has_date_and_rating df.

(** Lines 33-34: the date column is stripped, then parsed. *)
Definition parse_date (cell : option string) : option Timestamp :=
  Pandas.str_strip cell ≫= to_datetime.

(** Lines 33-38 on one row that was kept. *)
Definition derive (r : Raw.row) : Clean.row :=
  let date := parse_date (Raw.date_added r) in
  {| Clean.type := Raw.type r;
     Clean.director := Raw.director r;
     Clean.cast := Raw.cast r;
     Clean.country := Raw.country r;
     Clean.date_added := date;
     Clean.release_year := Raw.release_year r;
     Clean.rating := Raw.rating r;
     Clean.duration := Raw.duration r;
     Clean.listed_in := Raw.listed_in r;
     Clean.year_added := Pandas.dt_year date;
     Clean.month_added := Pandas.dt_month_name date |}.

(** Lines 24-38: the frame [load_and_clean_data] returns for the frame it
    read. *)
Definition cleaned (df : Raw.frame) : Clean.frame :=
  derive <$> drop_missing (fill_missing <$> df).

(** What line 43 returns for the frame that was read: the cleaned rows; the
    columns listed_in and duration have the dtype they were read with. *)
Definition loaded (df : Raw.frame) : Clean.table :=
  {| Clean.rows := cleaned df;
     Clean.listed_in_dtype := Pandas.read_dtype (Raw.listed_in <$> df);
     Clean.duration_dtype := Pandas.read_dtype (Raw.duration <$> df) |}.

(** Lines 17-43.  Lines 25-30 raise nothing; line 33 takes the [.str]
    accessor of the date column, whose dtype is the one it was read with,
    since line 30 removes rows only. *)
Definition load_and_clean_data (filepath : string) : M Clean.table :=
  print (Text ("Loading data from " +:+ filepath +:+ "..."));;
  df ← pd_read_csv filepath;
  print (Text (nl +:+ "Missing values before cleaning:"));;
  print (NullCounts (raw_isnull_sum df));;
  str_accessor (Pandas.read_dtype (Raw.date_added <$> df));;
  let df := loaded df in
  print (Text (nl +:+ "Missing values after cleaning:"));;
  print (NullCounts (clean_isnull_sum (Clean.rows df)));;
  mret df.

(** Category Counter. *)
Definition type_counts (df : Clean.frame) : list (string * nat) :=
  Pandas.value_counts (Clean.type <$> df).

Definition analyze_movies_vs_tv_shows (df : Clean.frame) : M unit :=
  print (Text (nl +:+ "--- Movies vs TV Shows ---"));;
  print (CountsByName (type_counts df));;
  savefig "distribution_type.png"
    (Countplot (Pandas.tally (Pandas.dropna (Clean.type <$> df)))).

(** Temporal Aggregator. *)
Definition data_by_year (df : Clean.frame) : list (Z * nat) :=
  Pandas.groupby_size (Clean.year_added <$> df).

Definition analyze_content_growth (df : Clean.frame) : M unit :=
  print (Text (nl +:+ "--- Content Growth Over Time ---"));;
  savefig "content_growth.png" (Lineplot (data_by_year df)).

(** Genre Splitter. *)
Definition exploded_genres (df : Clean.frame) : list string :=
  Pandas.split_expand_stack ", " (Clean.listed_in <$> df).

Definition genres (df : Clean.frame) : list (string * nat) :=
  Pandas.value_counts (Some <$> exploded_genres df).

(** Lines 72-84: line 74 takes the [.str] accessor of the genre column
    after the heading is printed. *)
Definition identify_top_genres (df : Clean.table) : M unit :=
  print (Text (nl +:+ "--- Top Genres ---"));;
  str_accessor (Clean.listed_in_dtype df);;
  print (Text "Top 10 Genres:");;
  print (CountsByName (Pandas.head 10 (genres (Clean.rows df))));;
  savefig "top_genres.png" (Barplot (Pandas.head 10 (genres (Clean.rows df)))).

(** Numeric Extractor. *)
Definition movies (df : Clean.frame) : Clean.frame :=
  filter (λ r, Clean.type r = Some "Movie") df.

Definition duration_min (r : Clean.row) : option Q :=
  Pandas.str_replace " min" "" (Clean.duration r) ≫= to_numeric.

Definition runtime_distribution (df : Clean.frame) : list Q :=
  Pandas.dropna (duration_min <$> movies df).

(** Lines 88-103: line 95 takes the [.str] accessor of the duration column
    of the movies, which has the dtype of the duration column. *)
Definition analyze_runtime (df : Clean.table) : M unit :=
  print (Text (nl +:+ "--- Runtime Analysis ---"));;
  str_accessor (Clean.duration_dtype df);;
  savefig "movie_duration_dist.png"
    (Histplot (runtime_distribution (Clean.rows df))).

(** Top-N Ranker. *)
Definition release_years (df : Clean.frame) : list (Z * nat) :=
  Pandas.head 10 (Pandas.value_counts (Clean.release_year <$> df)).

Definition analyze_release_years (df : Clean.frame) : M unit :=
  print (Text (nl +:+ "--- Top Release Years ---"));;
  print (CountsByYear (release_years df));;
  savefig "top_release_years.png" (CountplotOrdered (release_years df)).

(** The genre names one record lists. *)
Definition listed_genres (r : Clean.row) : list string :=
  default [] (Pandas.str_split ", " (Clean.listed_in r)).

(** The wording "strips the trailing unit suffix", to compare
    [duration_min] with: only a [" min"] that ends the cell is removed. *)
Definition spec_duration_min (r : Clean.row) : option Q :=
  (Str.removesuffix " min" <$> Clean.duration r) ≫= to_numeric.

Definition spec_runtime_distribution (df : Clean.frame) : list Q :=
  Pandas.dropna (spec_duration_min <$> movies df).

Definition filepath : string := "c:\Users\gkgan\Downloads\netflix\netflix_titles.csv".

(** The [try] block of [main]. *)
Definition main_body : M unit :=
  df ← load_and_clean_data filepath;
  analyze_movies_vs_tv_shows (Clean.rows df);;
  analyze_content_growth (Clean.rows df);;
  identify_top_genres df;;
  analyze_runtime df;;
  analyze_release_years (Clean.rows df);;
  print (Text (nl +:+ "Analysis complete. Plots saved as PNG files.")).

(** [main]: the [try] block under its two handlers.  An exception that is
    not an [Exception] is met by neither. *)
Definition main : M unit := λ w,
  match main_body w with
  | (Returned _, w') => (Returned (), w')
  | (Raised (FileNotFoundError _), w') =>
      print (Text ("Error: File not found at " +:+ filepath)) w'
  | (Raised (OtherException e), w') =>
      print (Text ("An error occurred: " +:+ e)) w'
  | (Raised (NotAnException e), w') => (Raised (NotAnException e), w')
  end.


(** The five charts of a run over cleaned rows, in stage order. *)
Definition charts (df : Clean.frame) : list artifact :=
  [ {| filename := "distribution_type.png";
       drawn := Countplot (Pandas.tally (Pandas.dropna (Clean.type <$> df))) |};
    {| filename := "content_growth.png"; drawn := Lineplot (data_by_year df) |};
    {| filename := "top_genres.png";
       drawn := Barplot (Pandas.head 10 (genres df)) |};
    {| filename := "movie_duration_dist.png";
       drawn := Histplot (runtime_distribution df) |};
    {| filename := "top_release_years.png";
       drawn := CountplotOrdered (release_years df) |} ].




End Script.

(** ** Two readers and a pandas to run the script with

    The script's two parsers are pandas' own.  The readers below read the
    catalogue's own notations only ("September 25, 2021" and "90") and
    answer null on anything else; they stand for [to_datetime] and
    [to_numeric] where the script is run on a concrete frame.  So does
    [pandas] for the installed pandas. *)

Module Readers.

Fixpoint digits_value (acc : Z) (s : string) : option Z :=
  match s with
  | EmptyString => Some acc
  | String c s' =>
      match Ascii.is_nat c with
      | Some d => digits_value (10 * acc + Z.of_nat d) s'
      | None => None
      end
  end.

(** A non-empty run of decimal digits. *)
Definition decimal (s : string) : option Z :=
  match s with
  | EmptyString => None
  | _ => digits_value 0 s
  end.

Definition to_numeric (s : string) : option Q := inject_Z <$> decimal s.

Definition months : list Month :=
  [January; February; March; April; May; June;
   July; August; September; October; November; December].

Definition month_of_name (s : string) : option Month :=
  list_find (λ m, Pandas.month_name m = s) months ≫= λ p, Some p.2.

Definition is_leap (y : Z) : bool :=
  ((y mod 4 =? 0) && negb (y mod 100 =? 0)) || (y mod 400 =? 0).

Definition days_in_month (y : Z) (m : Month) : Z :=
  match m with
  | February => if is_leap y then 29 else 28
  | April | June | September | November => 30
  | _ => 31
  end.

(** "Month D, YYYY" *)
Definition to_datetime (s : string) : option Timestamp :=
  match Str.split " " s with
  | [m; d; y] =>
      match month_of_name m, Str.split "," d, decimal y with
      | Some mo, [dd; EmptyString], Some yr =>
          match decimal dd with
          | Some dy =>
              if (1 <=? dy) && (dy <=? days_in_month yr mo)
              then Some {| ts_year := yr; ts_month := mo; ts_day := dy |}
              else None
          | None => None
          end
      | _, _, _ => None
      end
  | _ => None
  end.


(** Two ways to sort a tally by decreasing count, by insertion from the
    end: an entry goes in front of the first entry whose count is not larger
    than its own ([first_seen_first]: entries with equal counts keep the
    order of the tally), or in front of the first whose count is smaller
    (entries with equal counts come in the reverse of that order). *)
Fixpoint insert_desc {K} (first_seen_first : bool) (e : K * nat)
    (l : list (K * nat)) : list (K * nat) :=
  match l with
  | [] => [e]
  | e' :: l' =>
      if (if first_seen_first then e.2 <? e'.2 else e.2 <=? e'.2)%nat
      then e' :: insert_desc first_seen_first e l'
      else e :: e' :: l'
  end.

Definition sort_values_desc {K} (first_seen_first : bool)
    (l : list (K * nat)) : list (K * nat) :=
  foldr (insert_desc first_seen_first) [] l.

(** A pandas for each of the two sorts: each rearranges the tally and gives
    it in decreasing order of count.  The text of the error is that of
    pandas 2. *)
Definition pandas_with (first_seen_first : bool) : Pandas.Library.
Proof.
  refine {| Pandas.sort_values := λ K, sort_values_desc first_seen_first;
            Pandas.sort_values_perm := _;
            Pandas.sort_values_sorted := _;
            Pandas.str_accessor_message :=
              "Can only use .str accessor with string values!" |}.
  - intros K vc.
    assert (∀ (e : K * nat) l, insert_desc first_seen_first e l ≡ₚ e :: l)
      as Hinsert.
    { intros e l. induction l as [|e' l IH]; simpl; [done|].
      destruct (if first_seen_first then _ else _); [|done].
      by rewrite IH, Permutation_swap. }
    induction vc as [|e vc IH]; simpl; [done|].
    by rewrite Hinsert, IH.
  - intros K vc.
    assert (∀ (e : K * nat) l, insert_desc first_seen_first e l ≡ₚ e :: l)
      as Hinsert.
    { intros e l. induction l as [|e' l IH]; simpl; [done|].
      destruct (if first_seen_first then _ else _); [|done].
      by rewrite IH, Permutation_swap. }
    assert (∀ (e : K * nat) l,
      StronglySorted Pandas.descending l →
      StronglySorted Pandas.descending (insert_desc first_seen_first e l))
      as Hsorted.
    { intros e l. induction 1 as [|e' l Hs IH Hall]; simpl.
      - repeat constructor.
      - destruct (if first_seen_first then _ else _) eqn:Hlt.
        + assert (e.2 ≤ e'.2)%nat as Hle.
          { destruct first_seen_first;
              [apply Nat.ltb_lt in Hlt | apply Nat.leb_le in Hlt]; lia. }
          constructor; [done|].
          rewrite Hinsert. by constructor.
        + assert (e'.2 ≤ e.2)%nat as Hle.
          { destruct first_seen_first;
              [apply Nat.ltb_ge in Hlt | apply Nat.leb_gt in Hlt]; lia. }
          constructor; [by constructor|].
          constructor; [done|].
          eapply Forall_impl; [exact Hall|].
          unfold Pandas.descending. intros; lia. }
    induction vc as [|e vc IH]; simpl; [constructor|].
    by apply Hsorted.
Defined.

Definition pandas : Pandas.Library := pandas_with true.

End Readers.

(** ** Catalogue rows to run the script on *)

Module Samples.

Definition documentary : Raw.row :=
  Raw.mk (Some "Movie") (Some "Kirsten Johnson") None (Some "United States")
    (Some "September 25, 2021") (Some 2020) (Some "PG-13") (Some "90 min")
    (Some "Documentaries").

Definition series : Raw.row :=
  Raw.mk (Some "TV Show") None (Some "Ama Qamata") None
    (Some "  September 24, 2021 ") (Some 2021) (Some "TV-MA") (Some "2 Seasons")
    (Some "Comedy, Drama").

Definition short_film : Raw.row :=
  Raw.mk (Some "Movie") None None None
    (Some "January 1, 2020") (Some 2019) (Some "PG") (Some "45 min")
    (Some "Comedy").

(** A row whose date cell is text that is not a date. *)
Definition undated : Raw.row :=
  Raw.mk (Some "Movie") None None None
    (Some "coming soon") (Some 2021) (Some "PG") (Some "100 min")
    (Some "Dramas").

Definition unrated : Raw.row :=
  Raw.mk (Some "Movie") None None None
    (Some "January 1, 2020") (Some 2019) None (Some "45 min")
    (Some "Comedy").

(** Rows with an empty type cell and with an empty genre cell. *)
Definition untyped : Raw.row :=
  Raw.mk None None None None
    (Some "January 1, 2020") (Some 2019) (Some "PG") (Some "45 min")
    (Some "Comedy").

Definition unlisted : Raw.row :=
  Raw.mk (Some "Movie") None None None
    (Some "January 1, 2020") (Some 2019) (Some "PG") (Some "45 min")
    None.

(** A movie whose duration cell has the unit in the middle. *)
Definition odd_duration : Raw.row :=
  Raw.mk (Some "Movie") None None None
    (Some "January 1, 2020") (Some 2019) (Some "PG") (Some "1 min5")
    (Some "Comedy").





Definition padded : Raw.row :=
  Raw.mk (Some "Movie") None None None
    (Some (Str.of_bytes [194; 160]%nat +:+ "May 1, 2020"
           +:+ Str.of_bytes [226; 128; 137; 10]%nat))
    (Some 2019) (Some "PG") (Some "45 min")
    (Some "Comedy").


End Samples.

(** Where the script is run on one of these frames and nothing else is
    said, it is run with [Readers.pandas]. *)
#[local] Existing Instance Readers.pandas.

(** * Properties *)

Example strip_ex : Str.strip "  September 25, 2021 " = "September 25, 2021".
Proof. reflexivity. Qed.
Example strip_ex2 :
  Str.strip (Str.of_bytes [194; 160; 32]%nat +:+ "May 1, 2020"
             +:+ Str.of_bytes [226; 128; 137; 10]%nat)
  = "May 1, 2020".
Proof. reflexivity. Qed.
Example strip_ex3 : Str.strip "May 1,  2020" = "May 1,  2020".
Proof. reflexivity. Qed.
Example split_ex : Str.split ", " "Comedy, Drama" = ["Comedy"; "Drama"].
Proof. reflexivity. Qed.
Example split_ex2 : Str.split ", " ", a,, b, " = [""; "a,"; "b"; ""].
Proof. reflexivity. Qed.
Example split_ex3 : Str.split "aa" "aaa" = [""; "a"].
Proof. reflexivity. Qed.
Example split_ex4 : Str.split ", " "" = [""].
Proof. reflexivity. Qed.
Example replace_ex2 : Str.replace "aa" "b" "aaa" = "ba".
Proof. reflexivity. Qed.
Example replace_ex : Str.replace " min" "" "90 min" = "90".
Proof. reflexivity. Qed.
Example removesuffix_ex : Str.removesuffix " min" " min90 min" = " min90".
Proof. reflexivity. Qed.
Example to_datetime_ex :
  Readers.to_datetime "September 25, 2021"
  = Some {| ts_year := 2021; ts_month := September; ts_day := 25 |}.
Proof. reflexivity. Qed.
Example to_datetime_ex2 : Readers.to_datetime "February 30, 2021" = None.
Proof. reflexivity. Qed.
Example to_datetime_ex3 : Readers.to_datetime "coming soon" = None.
Proof. reflexivity. Qed.
Example to_numeric_ex : Readers.to_numeric "90" = Some (90 # 1)%Q.
Proof. reflexivity. Qed.
Example to_numeric_ex2 : Readers.to_numeric "2 Seasons" = None.
Proof. reflexivity. Qed.
Example read_dtype_ex :
  Pandas.read_dtype [None; Some "Comedy"] = object
  ∧ Pandas.read_dtype [None; None] = float64
  ∧ Pandas.read_dtype [] = object.
Proof. by repeat split. Qed.
Example value_counts_ex :
  Pandas.value_counts
    [Some "a"; None; Some "b"; Some "c"; Some "b"; Some "c"; Some "c"]
  = [("c", 3%nat); ("b", 2%nat); ("a", 1%nat)].
Proof. reflexivity. Qed.
Example value_counts_ties_ex :
  @Pandas.value_counts (Readers.pandas_with true) _ _
    [Some "a"; Some "b"; Some "c"; Some "c"]
  = [("c", 2%nat); ("a", 1%nat); ("b", 1%nat)]
  ∧ @Pandas.value_counts (Readers.pandas_with false) _ _
      [Some "a"; Some "b"; Some "c"; Some "c"]
    = [("c", 2%nat); ("b", 1%nat); ("a", 1%nat)].
Proof. split; reflexivity. Qed.
Example value_counts_cut_ex :
  Pandas.head 2 (Pandas.value_counts [Some 3; Some 1; Some 2; Some 1; Some 3; Some 3])
  = [(3, 3%nat); (1, 2%nat)].
Proof. reflexivity. Qed.
Example groupby_size_ex :
  Pandas.groupby_size [Some 2021; None; Some 2019; Some 2021]
  = [(2019, 1%nat); (2021, 2%nat)].
Proof. reflexivity. Qed.

(** ** Strings *)

Lemma append_cons c s t : String c s +:+ t = String c (s +:+ t).
Proof. reflexivity. Qed.

Lemma append_nil_r s : s +:+ "" = s.
Proof. induction s as [|c s IH]; [done|]. by rewrite append_cons, IH. Qed.

Lemma append_assoc s t u : (s +:+ t) +:+ u = s +:+ (t +:+ u).
Proof. induction s as [|c s IH]; [done|]. by rewrite !append_cons, IH. Qed.

Lemma append_length s t :
  String.length (s +:+ t) = (String.length s + String.length t)%nat.
Proof. induction s as [|c s IH]; [done|]. rewrite append_cons. simpl. lia. Qed.

Lemma rev_onto_append acc s : Str.rev_onto acc s = Str.rev_onto "" s +:+ acc.
Proof.
  revert acc. induction s as [|c s IH]; intros acc; [done|].
  simpl. rewrite (IH (String c acc)), (IH (String c "")).
  by rewrite append_assoc.
Qed.

Lemma rev_onto_app s t :
  Str.rev_onto "" (s +:+ t) = Str.rev_onto "" t +:+ Str.rev_onto "" s.
Proof.
  induction s as [|c s IH]; [by rewrite append_nil_r|].
  rewrite append_cons. simpl.
  rewrite (rev_onto_append (String c "") (s +:+ t)), IH.
  rewrite (rev_onto_append (String c "") s). by rewrite append_assoc.
Qed.

Lemma rev_onto_involutive s : Str.rev_onto "" (Str.rev_onto "" s) = s.
Proof.
  induction s as [|c s IH]; [done|].
  simpl. rewrite (rev_onto_append (String c "") s), rev_onto_app, IH. done.
Qed.

(** *** Scanning white space from one end *)

Section FrontFacts.
Context (one : ascii → bool) (two : ascii → ascii → bool)
  (three : ascii → ascii → ascii → bool).

#[local] Abbreviation sf := (Str.strip_front one two three).
#[local] Abbreviation sws := (Str.starts_with_space one two three).
#[local] Abbreviation os := (Str.only_space one two three).

(** A string starts with a white space character, which the three functions
    pass over whatever follows it, or it does not. *)
Lemma front_cases s :
  sws s = false
  ∨ ∃ t r, s = t +:+ r ∧ (String.length r < String.length s)%nat
           ∧ ∀ x, sf (t +:+ x) = sf x ∧ os (t +:+ x) = os x.
Proof.
  destruct s as [|c1 r1]; [by left|].
  destruct (one c1) eqn:H1.
  { right. exists (String c1 ""), r1. split; [done|]. split; [simpl; lia|].
    intros x. rewrite append_cons. simpl. by rewrite H1. }
  destruct r1 as [|c2 r2]; [left; simpl; by rewrite H1|].
  destruct (two c1 c2) eqn:H2.
  { right. exists (String c1 (String c2 "")), r2.
    split; [done|]. split; [simpl; lia|].
    intros x. rewrite !append_cons. simpl. by rewrite H1, H2. }
  destruct r2 as [|c3 r3]; [left; simpl; by rewrite H1, H2|].
  destruct (three c1 c2 c3) eqn:H3.
  { right. exists (String c1 (String c2 (String c3 ""))), r3.
    split; [done|]. split; [simpl; lia|].
    intros x. rewrite !append_cons. simpl. by rewrite H1, H2, H3. }
  left. simpl. by rewrite H1, H2, H3.
Qed.

Lemma strip_front_none s : sws s = false → sf s = s.
Proof.
  destruct s as [|c1 [|c2 [|c3 r3]]]; simpl; try done;
    destruct (one c1); simpl; try done;
    try (destruct (two c1 c2); simpl; try done);
    try (destruct (three c1 c2 c3); simpl; done).
Qed.

Lemma only_space_none s : sws s = false → s ≠ "" → os s = false.
Proof.
  destruct s as [|c1 [|c2 [|c3 r3]]]; simpl; try done;
    destruct (one c1); simpl; try done;
    try (destruct (two c1 c2); simpl; try done);
    try (destruct (three c1 c2 c3); simpl; done).
Qed.

Lemma starts_with_space_prefix u v : sws (u +:+ v) = false → sws u = false.
Proof.
  destruct u as [|c1 [|c2 [|c3 r3]]]; try done;
    rewrite ?append_cons; simpl; destruct (one c1); simpl; try done;
    try (destruct (two c1 c2); simpl; try done);
    destruct v as [|d1 [|d2 v]]; simpl; done.
Qed.

(** What [strip_front] takes off is white space, what it leaves does not
    start with white space, and of white space it leaves nothing. *)
Lemma strip_front_facts (n : nat) s :
  (String.length s ≤ n)%nat →
  (∃ p, s = p +:+ sf s ∧ os p = true)
  ∧ sws (sf s) = false
  ∧ (os s = true → sf s = "").
Proof.
  revert s. induction n as [|n IH]; intros s Hn.
  - destruct s; [|simpl in Hn; lia]. split; [by exists ""|done].
  - destruct (front_cases s) as [Hnone|(t & r & -> & Hlen & Ht)].
    + rewrite strip_front_none by done. split; [by exists ""|]. split; [done|].
      intros Hos. destruct s as [|c r]; [done|].
      by rewrite only_space_none in Hos.
    + destruct (Ht r) as (-> & ->).
      destruct (IH r) as ((p & Hp & Hop) & Hsws & Hblank); [lia|].
      split; [|done].
      exists (t +:+ p). rewrite append_assoc, <- Hp. split; [done|].
      by destruct (Ht p) as (_ & ->).
Qed.

Lemma only_space_app (n : nat) s t :
  (String.length s ≤ n)%nat →
  os s = true → os t = true → os (s +:+ t) = true.
Proof.
  revert s. induction n as [|n IH]; intros s Hn Hs Ht.
  - by destruct s; [|simpl in Hn; lia].
  - destruct (front_cases s) as [Hnone|(u & r & -> & Hlen & Hu)].
    + destruct s as [|c r]; [done|]. by rewrite only_space_none in Hs.
    + rewrite append_assoc. destruct (Hu (r +:+ t)) as (_ & ->).
      destruct (Hu r) as (_ & Hr). rewrite Hr in Hs. apply IH; [lia|done..].
Qed.

End FrontFacts.

(** The bytes of a white space character of one length do not start one of
    another length. *)
Lemma isspace2_first c1 c2 : Str.isspace2 c1 c2 = true → Str.isspace c1 = false.
Proof.
  unfold Str.isspace2. intros Hin%bool_decide_eq_true.
  assert (nat_of_ascii c1 = 194%nat) as Hc.
  { rewrite !elem_of_cons, elem_of_nil in Hin. naive_solver. }
  apply (f_equal ascii_of_nat) in Hc. rewrite ascii_nat_embedding in Hc.
  by subst c1.
Qed.

Lemma isspace3_first c1 c2 c3 :
  Str.isspace3 c1 c2 c3 = true →
  Str.isspace c1 = false ∧ Str.isspace2 c1 c2 = false.
Proof.
  unfold Str.isspace3. intros Hin%bool_decide_eq_true.
  assert (nat_of_ascii c1 = 225%nat ∨ nat_of_ascii c1 = 226%nat
          ∨ nat_of_ascii c1 = 227%nat) as Hc.
  { rewrite !elem_of_cons, elem_of_nil in Hin. naive_solver. }
  split.
  - destruct Hc as [Hc|[Hc|Hc]];
      apply (f_equal ascii_of_nat) in Hc; rewrite ascii_nat_embedding in Hc;
      by subst c1.
  - unfold Str.isspace2. apply bool_decide_eq_false.
    rewrite !elem_of_cons, elem_of_nil. intros [[= H1 _]|[[= H1 _]|[]]]; lia.
Qed.

(** White space read from the end is white space read from the front. *)
Lemma only_space_rev (n : nat) s :
  (String.length s ≤ n)%nat →
  Str.only_space Str.isspace (λ c2 c1, Str.isspace2 c1 c2)
    (λ c3 c2 c1, Str.isspace3 c1 c2 c3) s = true →
  Str.blank (Str.rev_onto "" s) = true.
Proof.
  assert (∀ r t, Str.blank r = true → Str.blank t = true →
                 Str.blank (r +:+ t) = true) as Happ.
  { intros r t. by apply (only_space_app _ _ _ (String.length r)). }
  assert (∀ c r, Str.rev_onto "" (String c r)
                 = Str.rev_onto "" r +:+ String c "") as Hrev.
  { intros c r. simpl. by rewrite (rev_onto_append (String c "")). }
  revert s. induction n as [|n IH]; intros s Hn.
  { by destruct s; [|simpl in Hn; lia]. }
  destruct s as [|c1 r1]; [done|]. simpl in Hn. cbn [Str.only_space].
  destruct (Str.isspace c1) eqn:H1.
  { intros Hr. rewrite Hrev. apply Happ; [apply IH; [lia|done]|].
    unfold Str.blank. simpl. by rewrite H1. }
  destruct r1 as [|c2 r2]; [done|]. simpl in Hn.
  destruct (Str.isspace2 c2 c1) eqn:H2.
  { intros Hr. rewrite !Hrev, append_assoc.
    apply Happ; [apply IH; [lia|done]|].
    unfold Str.blank. rewrite !append_cons. simpl.
    by rewrite (isspace2_first _ _ H2), H2. }
  destruct r2 as [|c3 r3]; [done|]. simpl in Hn.
  intros [H3 Hr]%andb_true_iff. rewrite !Hrev, !append_assoc.
  apply Happ; [apply IH; [lia|done]|].
  unfold Str.blank. rewrite !append_cons. simpl.
  destruct (isspace3_first _ _ _ H3) as [-> ->]. by rewrite H3.
Qed.

(** *** [strip] *)

(** [lstrip] takes white space off the front, and all of it. *)
Lemma lstrip_spec s :
  (∃ p, s = p +:+ Str.lstrip s ∧ Str.blank p = true)
  ∧ Str.startswith_space (Str.lstrip s) = false.
Proof.
  destruct (strip_front_facts Str.isspace Str.isspace2 Str.isspace3
              (String.length s) s) as (Hp & Hs & _); done.
Qed.

(** [rstrip] takes white space off the end, and all of it. *)
Lemma rstrip_spec s :
  (∃ q, s = Str.rstrip s +:+ q ∧ Str.blank q = true)
  ∧ Str.endswith_space (Str.rstrip s) = false.
Proof.
  unfold Str.rstrip, Str.endswith_space.
  destruct (strip_front_facts Str.isspace (λ c2 c1, Str.isspace2 c1 c2)
              (λ c3 c2 c1, Str.isspace3 c1 c2 c3)
              (String.length (Str.rev_onto "" s)) (Str.rev_onto "" s))
    as ((p & Hp & Hop) & Hs & _); [done|].
  rewrite rev_onto_involutive. split; [|done].
  exists (Str.rev_onto "" p). split.
  - rewrite <- rev_onto_app, <- Hp. by rewrite rev_onto_involutive.
  - by apply (only_space_rev (String.length p)).
Qed.

Lemma rstrip_fixed s : Str.endswith_space s = false → Str.rstrip s = s.
Proof.
  unfold Str.endswith_space, Str.rstrip. intros Hs.
  by rewrite strip_front_none, rev_onto_involutive.
Qed.

Lemma lstrip_fixed s : Str.startswith_space s = false → Str.lstrip s = s.
Proof. apply strip_front_none. Qed.

Lemma lstrip_blank s : Str.blank s = true → Str.lstrip s = "".
Proof.
  by apply (strip_front_facts Str.isspace Str.isspace2 Str.isspace3
              (String.length s) s).
Qed.

(** [strip]: the string is what was stripped between two runs of white
    space, and what was stripped neither starts nor ends with white space. *)
Lemma strip_spec s :
  (∃ p q, s = p +:+ Str.strip s +:+ q
          ∧ Str.blank p = true ∧ Str.blank q = true)
  ∧ Str.startswith_space (Str.strip s) = false
  ∧ Str.endswith_space (Str.strip s) = false.
Proof.
  unfold Str.strip.
  destruct (lstrip_spec s) as ((p & Hs & Hp) & Hstart).
  destruct (rstrip_spec (Str.lstrip s)) as ((q & Hl & Hq) & Hend).
  split; [|split; [|done]].
  - exists p, q. by rewrite <- Hl.
  - apply (starts_with_space_prefix _ _ _ _ q).
    unfold Str.startswith_space in Hstart. by rewrite <- Hl.
Qed.

(** *** [str.split] always yields a piece *)

Lemma split_scan_length sep k acc s :
  (1 ≤ length (Str.split_scan sep k acc s))%nat.
Proof.
  revert k acc. induction s as [|c s IH]; intros k acc; simpl; [lia|].
  destruct k as [|k]; [|apply IH].
  destruct (Str.startswith sep (String c s)); [simpl; lia | apply IH].
Qed.

Lemma split_length sep s : (1 ≤ length (Str.split sep s))%nat.
Proof. apply split_scan_length. Qed.

Lemma split_scan_skip sep t acc s :
  Str.split_scan sep (String.length t) acc (t +:+ s)
  = Str.split_scan sep O acc s.
Proof. induction t as [|c t IH]; [done|]. by rewrite append_cons. Qed.

Lemma startswith_append p s :
  Str.startswith p s = true → ∃ r, s = p +:+ r.
Proof.
  revert s. induction p as [|a p IH]; intros s Hs; [by exists s|].
  destruct s as [|b s]; [done|]. simpl in Hs.
  destruct (decide (a = b)) as [->|]; [|done].
  destruct (IH _ Hs) as [r ->]. by exists r.
Qed.

Lemma join_cons sep x l :
  (1 ≤ length l)%nat → Str.join sep (x :: l) = x +:+ sep +:+ Str.join sep l.
Proof. destruct l; simpl; [lia | done]. Qed.

Lemma join_split_scan sep (n : nat) s acc :
  sep ≠ "" → (String.length s ≤ n)%nat →
  Str.join sep (Str.split_scan sep O acc s) = Str.rev_onto "" acc +:+ s.
Proof.
  intros Hsep. revert s acc.
  induction n as [|n IH]; intros [|c s] acc Hn; simpl in Hn; try lia.
  - simpl. by rewrite append_nil_r.
  - simpl. by rewrite append_nil_r.
  - cbn [Str.split_scan]. destruct (Str.startswith sep (String c s)) eqn:Hstart.
    + apply startswith_append in Hstart as [r Hr].
      destruct sep as [|a sep']; [done|].
      rewrite append_cons in Hr. injection Hr as -> ->.
      cbn [String.length Nat.pred]. rewrite split_scan_skip.
      rewrite join_cons by apply split_scan_length.
      rewrite IH by (rewrite append_length in Hn; lia).
      by rewrite append_cons.
    + rewrite IH by lia. simpl.
      rewrite (rev_onto_append (String c "")), append_assoc. done.
Qed.

(** X4: joining the pieces of a split with the separator gives the string
    back, whatever the string is. *)
Lemma join_split sep s : sep ≠ "" → Str.join sep (Str.split sep s) = s.
Proof.
  intros Hsep. unfold Str.split.
  by rewrite (join_split_scan sep (String.length s)).
Qed.

(** ** Counting and sorting *)

Section CountingFacts.
Context {lib : Pandas.Library} {K : Type} `{EqDecision K}.
Implicit Types (x y : K) (l us : list K) (e : K * nat) (vc : list (K * nat)).

Lemma count_of_nil x : Pandas.count_of x [] = 0%nat.
Proof. reflexivity. Qed.

Lemma count_of_cons x y l :
  Pandas.count_of x (y :: l)
  = ((if decide (y = x) then 1 else 0) + Pandas.count_of x l)%nat.
Proof.
  unfold Pandas.count_of. rewrite filter_cons.
  destruct (decide (y = x)); reflexivity.
Qed.

Lemma count_of_app x l1 l2 :
  Pandas.count_of x (l1 ++ l2)
  = (Pandas.count_of x l1 + Pandas.count_of x l2)%nat.
Proof. unfold Pandas.count_of. by rewrite filter_app, length_app. Qed.

Lemma count_of_pos x l : (0 < Pandas.count_of x l)%nat ↔ x ∈ l.
Proof.
  induction l as [|y l IH].
  - rewrite count_of_nil. split; [intros; lia | by intros ?%elem_of_nil].
  - rewrite count_of_cons, elem_of_cons.
    destruct (decide (y = x)) as [->|Hne].
    + split; [by left | intros; lia].
    + simpl. rewrite IH. split; [by right | by intros [->|]].
Qed.

Lemma count_of_zero x l : x ∉ l → Pandas.count_of x l = 0%nat.
Proof.
  intros Hx. destruct (Pandas.count_of x l) eqn:E; [done|].
  exfalso. apply Hx, count_of_pos. lia.
Qed.

Lemma elem_of_unique x l : x ∈ Pandas.unique l ↔ x ∈ l.
Proof.
  induction l as [|y l IH]; simpl; [done|].
  rewrite !elem_of_cons, list_elem_of_filter, IH.
  destruct (decide (x = y)) as [->|Hne]; [split; by left|].
  split; [intros [?|[_ ?]]; [done | by right] | intros [?|?]; [done | by right]].
Qed.

Lemma NoDup_unique l : NoDup (Pandas.unique l).
Proof.
  induction l as [|y l IH]; simpl; [constructor|].
  constructor; [|by apply NoDup_filter].
  rewrite list_elem_of_filter. by intros [? _].
Qed.

Lemma length_unique_le l : (length (Pandas.unique l) ≤ length l)%nat.
Proof.
  induction l as [|y l IH]; simpl; [lia|].
  pose proof (length_filter (λ z, z ≠ y) (Pandas.unique l)). lia.
Qed.

Lemma sum_count_of_step a l us :
  NoDup us →
  sum_list ((λ y, Pandas.count_of y (a :: l)) <$> us)
  = ((if decide (a ∈ us) then 1 else 0)
     + sum_list ((λ y, Pandas.count_of y l) <$> us))%nat.
Proof.
  induction 1 as [|u us Hu Hnd IH]; [done|].
  rewrite !fmap_cons.
  change (sum_list (?n :: ?t)) with (n + sum_list t)%nat.
  rewrite IH, count_of_cons.
  repeat case_decide; subst; try lia; exfalso; set_solver.
Qed.

(** Over a duplicate-free list of values, the numbers of occurrences add up
    to the number of elements that have one of these values. *)
Lemma sum_count_of_NoDup us l :
  NoDup us →
  sum_list ((λ y, Pandas.count_of y l) <$> us) = length (filter (λ a, a ∈ us) l).
Proof.
  intros Hnd. induction l as [|a l IH].
  - rewrite filter_nil. simpl. clear Hnd.
    induction us as [|u us IHus]; [done|].
    rewrite fmap_cons. simpl. by rewrite IHus.
  - rewrite filter_cons, sum_count_of_step, IH by done.
    destruct (decide (a ∈ us)); simpl; lia.
Qed.

Lemma filter_all {A} (P : A → Prop) `{∀ a, Decision (P a)} (l : list A) :
  Forall P l → filter P l = l.
Proof.
  induction 1 as [|a l Ha _ IH]; [done|].
  by rewrite filter_cons_True, IH.
Qed.

Lemma sum_tally l : sum_list ((Pandas.tally l).*2) = length l.
Proof.
  unfold Pandas.tally. rewrite <- list_fmap_compose.
  change (snd ∘ _) with (λ y, Pandas.count_of y l).
  rewrite sum_count_of_NoDup by apply NoDup_unique.
  rewrite filter_all; [done|].
  apply Forall_forall. intros x Hx. by apply elem_of_unique.
Qed.

Lemma tally_fst l : (Pandas.tally l).*1 = Pandas.unique l.
Proof.
  unfold Pandas.tally. rewrite <- list_fmap_compose. apply list_fmap_id.
Qed.

Lemma elem_of_tally x n l :
  (x, n) ∈ Pandas.tally l ↔ x ∈ l ∧ n = Pandas.count_of x l.
Proof.
  unfold Pandas.tally. rewrite list_elem_of_fmap. split.
  - intros (y & [= -> ->] & Hy). by rewrite <- elem_of_unique.
  - intros [Hx ->]. exists x. by rewrite elem_of_unique.
Qed.

(** *** [value_counts] *)

Lemma value_counts_sorted (s : list (option K)) :
  StronglySorted Pandas.descending (Pandas.value_counts s).
Proof. apply Pandas.sort_values_sorted. Qed.

Lemma value_counts_perm (s : list (option K)) :
  Pandas.value_counts s ≡ₚ Pandas.tally (Pandas.dropna s).
Proof. apply Pandas.sort_values_perm. Qed.

Lemma value_counts_sum (s : list (option K)) :
  sum_list ((Pandas.value_counts s).*2) = length (Pandas.dropna s).
Proof. by rewrite value_counts_perm, sum_tally. Qed.

Lemma elem_of_value_counts x n (s : list (option K)) :
  (x, n) ∈ Pandas.value_counts s
  ↔ x ∈ Pandas.dropna s ∧ n = Pandas.count_of x (Pandas.dropna s).
Proof. by rewrite value_counts_perm, elem_of_tally. Qed.

Lemma value_counts_NoDup (s : list (option K)) :
  NoDup ((Pandas.value_counts s).*1).
Proof. rewrite value_counts_perm, tally_fst. apply NoDup_unique. Qed.

Lemma count_in_elem_of vc x n :
  NoDup (vc.*1) → (x, n) ∈ vc → Pandas.count_in vc x = n.
Proof.
  unfold Pandas.count_in. intros Hnd Hin.
  destruct (list_find _ vc) as [[i e]|] eqn:Hfind.
  - apply list_find_Some in Hfind as (Hi & He & _).
    apply list_elem_of_lookup in Hin as [j Hj].
    assert (i = j) as ->.
    { eapply NoDup_lookup; [exact Hnd| |]; rewrite list_lookup_fmap.
      - by rewrite Hi.
      - rewrite Hj. simpl. by rewrite He. }
    rewrite Hi in Hj. by injection Hj as ->.
  - apply list_find_None in Hfind.
    rewrite Forall_forall in Hfind. by destruct (Hfind _ Hin).
Qed.

Lemma count_in_not_elem_of vc x :
  x ∉ vc.*1 → Pandas.count_in vc x = 0%nat.
Proof.
  unfold Pandas.count_in. intros Hx.
  destruct (list_find _ vc) as [[i e]|] eqn:Hfind; [|done].
  apply list_find_Some in Hfind as (Hi & He & _).
  destruct Hx. rewrite <- He. apply list_elem_of_fmap.
  exists e. split; [done|]. by eapply list_elem_of_lookup_2.
Qed.

(** What a counts Series shows for a value is its number of occurrences. *)
Lemma count_in_value_counts x (s : list (option K)) :
  Pandas.count_in (Pandas.value_counts s) x = Pandas.count_of x (Pandas.dropna s).
Proof.
  destruct (decide (x ∈ Pandas.dropna s)) as [Hin|Hnin].
  - apply count_in_elem_of; [apply value_counts_NoDup|].
    by apply elem_of_value_counts.
  - rewrite count_of_zero by done. apply count_in_not_elem_of.
    rewrite value_counts_perm, tally_fst, elem_of_unique. done.
Qed.

End CountingFacts.




(** *** [dropna] and [groupby(...).size()] *)

Lemma dropna_Some {A} (l : list A) : Pandas.dropna (Some <$> l) = l.
Proof.
  induction l as [|a l IH]; [done|].
  rewrite fmap_cons.
  change (Pandas.dropna (Some a :: (Some <$> l)))
    with (a :: Pandas.dropna (Some <$> l)).
  by rewrite IH.
Qed.

Lemma dropna_cons_None {A} (s : list (option A)) :
  Pandas.dropna (None :: s) = Pandas.dropna s.
Proof. reflexivity. Qed.

Lemma elem_of_dropna {A} (a : A) (s : list (option A)) :
  a ∈ Pandas.dropna s ↔ Some a ∈ s.
Proof.
  unfold Pandas.dropna. rewrite list_elem_of_omap. split.
  - intros (x & Hx & Heq). simpl in Heq. by subst x.
  - intros Hin. by exists (Some a).
Qed.

Lemma length_dropna {A} (s : list (option A)) :
  length (Pandas.dropna s) = length (filter (λ c, c ≠ None) s).
Proof.
  induction s as [|[a|] s IH]; [done| |].
  - rewrite filter_cons_True by done. simpl. by rewrite IH.
  - rewrite filter_cons_False by (by intros []). done.
Qed.

Lemma ascending_NoDup (l : list Z) :
  StronglySorted Z.le l → NoDup l → StronglySorted Z.lt l.
Proof.
  induction 1 as [|a l Hs IH Hall]; intros Hnd; [constructor|].
  apply NoDup_cons in Hnd as [Ha Hnd].
  constructor; [by apply IH|].
  rewrite Forall_forall in Hall |- *. intros b Hb.
  specialize (Hall b Hb). assert (a ≠ b) by (by intros ->). lia.
Qed.

Lemma groupby_size_keys (ks : list (option Z)) :
  (Pandas.groupby_size ks).*1
  = merge_sort Z.le (Pandas.unique (Pandas.dropna ks)).
Proof.
  unfold Pandas.groupby_size. cbv zeta.
  rewrite <- list_fmap_compose. apply list_fmap_id.
Qed.

Lemma groupby_size_perm (ks : list (option Z)) :
  Pandas.groupby_size ks ≡ₚ Pandas.tally (Pandas.dropna ks).
Proof.
  unfold Pandas.groupby_size, Pandas.tally. cbv zeta.
  by rewrite merge_sort_Permutation.
Qed.

Lemma groupby_size_ascending (ks : list (option Z)) :
  StronglySorted Z.lt ((Pandas.groupby_size ks).*1).
Proof.
  rewrite groupby_size_keys. apply ascending_NoDup.
  - apply StronglySorted_merge_sort; apply _.
  - rewrite merge_sort_Permutation. apply NoDup_unique.
Qed.

Lemma elem_of_groupby_size y n (ks : list (option Z)) :
  (y, n) ∈ Pandas.groupby_size ks
  ↔ y ∈ Pandas.dropna ks ∧ n = Pandas.count_of y (Pandas.dropna ks).
Proof. by rewrite groupby_size_perm, elem_of_tally. Qed.

Lemma groupby_size_sum (ks : list (option Z)) :
  sum_list ((Pandas.groupby_size ks).*2) = length (Pandas.dropna ks).
Proof. by rewrite groupby_size_perm, sum_tally. Qed.

(** ** The Loader/Cleaner *)

Section CleanerFacts.
Context (to_datetime : string → option Timestamp).

Lemma has_date_and_rating_fill r :
  has_date_and_rating (fill_missing r) ↔ has_date_and_rating r.
Proof. reflexivity. Qed.

(** Filling first and dropping second keeps the rows that had both cells
    when they were read. *)
Lemma cleaned_unfold (df : Raw.frame) :
  cleaned to_datetime df
  = (λ r, derive to_datetime (fill_missing r)) <$> filter has_date_and_rating df.
Proof.
  unfold cleaned, drop_missing.
  induction df as [|r df IH]; [done|].
  rewrite fmap_cons, !filter_cons.
  destruct (decide (has_date_and_rating r)) as [Hk|Hk].
  - rewrite decide_True by done.
    rewrite !fmap_cons. by rewrite IH.
  - by rewrite decide_False.
Qed.

Lemma elem_of_cleaned (df : Raw.frame) (r : Clean.row) :
  r ∈ cleaned to_datetime df
  ↔ ∃ r0, r0 ∈ df ∧ has_date_and_rating r0
          ∧ r = derive to_datetime (fill_missing r0).
Proof.
  rewrite cleaned_unfold, list_elem_of_fmap. split.
  - intros (r0 & -> & [Hk Hin]%list_elem_of_filter). by exists r0.
  - intros (r0 & Hin & Hk & ->). exists r0. split; [done|].
    by apply list_elem_of_filter.
Qed.

End CleanerFacts.

(** The dtype of a column as read: text, unless the file has rows and the
    column holds nothing. *)
Lemma read_dtype_object {A} (f : A → option string) (l : list A) :
  Pandas.read_dtype (f <$> l) = object
  ↔ l = [] ∨ ∃ a, a ∈ l ∧ is_Some (f a).
Proof.
  unfold Pandas.read_dtype. case_decide as Hd.
  - split; [intros _|done]. destruct Hd as [Hnil|Hex].
    + left. by apply fmap_nil_inv in Hnil.
    + right. apply Exists_exists in Hex as (c & Hc & Hsome).
      apply list_elem_of_fmap in Hc as (a & -> & Ha). by exists a.
  - split; [done|]. intros [->|(a & Ha & Hsome)]; destruct Hd.
    + by left.
    + right. apply Exists_exists. exists (f a). split; [|done].
      apply list_elem_of_fmap. by exists a.
Qed.

Lemma read_dtype_float64 {A} (f : A → option string) (l : list A) :
  Pandas.read_dtype (f <$> l) = float64
  ↔ l ≠ [] ∧ Forall (λ a, f a = None) l.
Proof.
  split.
  - intros Hd. split.
    + intros ->. discriminate Hd.
    + apply Forall_forall. intros a Ha.
      destruct (f a) as [s|] eqn:Hs; [|done].
      assert (Pandas.read_dtype (f <$> l) = object) as Ho; [|congruence].
      apply read_dtype_object. right. exists a. by rewrite Hs.
  - intros [Hne Hall].
    destruct (Pandas.read_dtype (f <$> l)) eqn:Hd; [|done].
    apply read_dtype_object in Hd as [->|(a & Ha & Hsome)]; [done|].
    rewrite Forall_forall in Hall. rewrite (Hall a Ha) in Hsome.
    by destruct Hsome.
Qed.

(** Reading succeeded and the date column is text: [load_and_clean_data]
    returns the cleaned frame, after five lines of output. *)
Lemma load_and_clean_data_returns `{Pandas.Library}
    to_datetime read_csv path df w :
  read_csv path = inr df →
  Pandas.read_dtype (Raw.date_added <$> df) = object →
  load_and_clean_data to_datetime read_csv path w
  = (Returned (loaded to_datetime df),
     {| stdout := stdout w
          ++ [ Text ("Loading data from " +:+ path +:+ "...");
               Text (nl +:+ "Missing values before cleaning:");
               NullCounts (raw_isnull_sum df);
               Text (nl +:+ "Missing values after cleaning:");
               NullCounts (clean_isnull_sum (cleaned to_datetime df)) ];
        files := files w |}).
Proof.
  intros Hread Hdate.
  unfold load_and_clean_data, pd_read_csv, str_accessor, print, mbind, M_bind.
  simpl. rewrite Hread. simpl. rewrite Hdate. simpl.
  by rewrite <- !app_assoc.
Qed.

(** Reading succeeded and the date column holds nothing: line 33 raises,
    after three lines of output. *)
Lemma load_and_clean_data_raises `{Pandas.Library}
    to_datetime read_csv path df w :
  read_csv path = inr df →
  Pandas.read_dtype (Raw.date_added <$> df) = float64 →
  load_and_clean_data to_datetime read_csv path w
  = (Raised (OtherException Pandas.str_accessor_message),
     {| stdout := stdout w
          ++ [ Text ("Loading data from " +:+ path +:+ "...");
               Text (nl +:+ "Missing values before cleaning:");
               NullCounts (raw_isnull_sum df) ];
        files := files w |}).
Proof.
  intros Hread Hdate.
  unfold load_and_clean_data, pd_read_csv, str_accessor, print, mbind, M_bind.
  simpl. rewrite Hread. simpl. rewrite Hdate. simpl.
  by rewrite <- !app_assoc.
Qed.

(** C8: in the frame the Loader/Cleaner returns no record has a null
    director, cast or country: a record has the value that was read, or
    "Unknown" where none was read; every other column that was read (type,
    release_year, rating, duration, listed_in) is as it was read, and
    date_added is the parse of what was read, not a filled value. *)
Theorem cleaned_fills_director_cast_country
    (to_datetime : string → option Timestamp) (df : Raw.frame) (r : Clean.row) :
  r ∈ cleaned to_datetime df →
  Clean.director r ≠ None ∧ Clean.cast r ≠ None ∧ Clean.country r ≠ None
  ∧ ∃ r0, r0 ∈ df
      ∧ Clean.director r = Some (default "Unknown" (Raw.director r0))
      ∧ Clean.cast r = Some (default "Unknown" (Raw.cast r0))
      ∧ Clean.country r = Some (default "Unknown" (Raw.country r0))
      ∧ Clean.type r = Raw.type r0
      ∧ Clean.release_year r = Raw.release_year r0
      ∧ Clean.rating r = Raw.rating r0
      ∧ Clean.duration r = Raw.duration r0
      ∧ Clean.listed_in r = Raw.listed_in r0
      ∧ Clean.date_added r
        = Raw.date_added r0 ≫= λ s, to_datetime (Str.strip s).
Proof.
  intros (r0 & Hin & _ & ->)%elem_of_cleaned. simpl.
  assert (∀ c : option string,
    Pandas.fillna "Unknown" c = Some (default "Unknown" c)) as Hfill
    by (by intros [?|]).
  rewrite !Hfill. repeat split; try done.
  exists r0. repeat split; try done.
  unfold parse_date, Pandas.str_strip. by destruct (Raw.date_added r0).
Qed.

Lemma cleaned_fills_director_cast_country_witness :
  let r := derive Readers.to_datetime (fill_missing Samples.series) in
  Clean.director r = Some "Unknown" ∧ Clean.cast r = Some "Ama Qamata"
  ∧ Clean.director r ≠ None.
Proof.
  intros r. split; [reflexivity|]. split; [reflexivity|].
  refine (proj1 (cleaned_fills_director_cast_country Readers.to_datetime
                   [Samples.documentary; Samples.series] r _)).
  vm_compute. right. left.
Defined.

(** C2: every kept record's date is the parse of the raw string with its
    leading and trailing white space taken off, and is null where the parse
    fails; a failed parse neither raises nor drops the row: the loader
    returns the cleaned frame whenever the frame read has a date string at
    all, as it has when a record is kept (it raises, on line 33, only when
    the frame read has rows and no date in any of them); year_added is the
    year of date_added and month_added the name of its month, and each
    derived field is null exactly when date_added is. *)
Theorem cleaned_dates_and_derived_fields `{Pandas.Library}
    (to_datetime : string → option Timestamp) (df : Raw.frame) :
  (∀ path w,
     (load_and_clean_data to_datetime (λ _, inr df) path w).1
     = match Pandas.read_dtype (Raw.date_added <$> df) with
       | object => Returned (loaded to_datetime df)
       | float64 => Raised (OtherException Pandas.str_accessor_message)
       end)
  ∧ (Pandas.read_dtype (Raw.date_added <$> df) = object
     ↔ df = [] ∨ ∃ r0, r0 ∈ df ∧ is_Some (Raw.date_added r0))
  ∧ (cleaned to_datetime df ≠ [] →
     ∀ path w,
       (load_and_clean_data to_datetime (λ _, inr df) path w).1
       = Returned (loaded to_datetime df))
  ∧ Clean.rows (loaded to_datetime df) = cleaned to_datetime df
  ∧ (∀ s, (∃ p q, s = p +:+ Str.strip s +:+ q
                  ∧ Str.blank p = true ∧ Str.blank q = true)
          ∧ Str.startswith_space (Str.strip s) = false
          ∧ Str.endswith_space (Str.strip s) = false)
  ∧ length (cleaned to_datetime df) = length (filter has_date_and_rating df)
  ∧ Forall (λ r0, has_date_and_rating r0 →
              derive to_datetime (fill_missing r0) ∈ cleaned to_datetime df) df
  ∧ Forall (λ r,
      (∃ r0 s, r0 ∈ df ∧ Raw.date_added r0 = Some s
               ∧ Clean.date_added r = to_datetime (Str.strip s))
      ∧ Clean.year_added r = ts_year <$> Clean.date_added r
      ∧ Clean.month_added r
        = (λ t, Pandas.month_name (ts_month t)) <$> Clean.date_added r
      ∧ (Clean.year_added r = None ↔ Clean.date_added r = None)
      ∧ (Clean.month_added r = None ↔ Clean.date_added r = None))
    (cleaned to_datetime df).
Proof.
  assert (∀ path w,
     (load_and_clean_data to_datetime (λ _, inr df) path w).1
     = match Pandas.read_dtype (Raw.date_added <$> df) with
       | object => Returned (loaded to_datetime df)
       | float64 => Raised (OtherException Pandas.str_accessor_message)
       end) as Hrun.
  { intros path w. destruct (Pandas.read_dtype _) eqn:Hd.
    - by rewrite (load_and_clean_data_returns _ _ _ df).
    - by rewrite (load_and_clean_data_raises _ _ _ df). }
  split; [done|]. split; [apply read_dtype_object|].
  split; [|split; [done|split; [|split; [|split]]]].
  - intros Hrows path w. rewrite Hrun.
    destruct (cleaned to_datetime df) as [|r rows] eqn:Hc; [done|].
    assert (r ∈ cleaned to_datetime df) as Hr by (rewrite Hc; left).
    apply elem_of_cleaned in Hr as (r0 & Hin & [Hdate _] & _).
    assert (Pandas.read_dtype (Raw.date_added <$> df) = object) as ->; [|done].
    apply read_dtype_object. right. by exists r0.
  - apply strip_spec.
  - by rewrite cleaned_unfold, length_fmap.
  - apply Forall_forall. intros r0 Hin Hk. apply elem_of_cleaned. by exists r0.
  - apply Forall_forall.
    intros r (r0 & Hin & [[s Hs] _] & ->)%elem_of_cleaned. simpl.
    unfold Pandas.dt_year, Pandas.dt_month_name, parse_date, Pandas.str_strip.
    rewrite Hs. simpl. split; [by exists r0, s|].
    destruct (to_datetime (Str.strip s)); simpl; by repeat split.
Qed.

Lemma cleaned_dates_and_derived_fields_witness :
  Forall (λ r, Clean.year_added r = None ↔ Clean.date_added r = None)
    (cleaned Readers.to_datetime
       [Samples.undated; Samples.series; Samples.padded])
  ∧ (Clean.date_added
       <$> cleaned Readers.to_datetime
             [Samples.undated; Samples.series; Samples.padded])
    = [ None;
        Some {| ts_year := 2021; ts_month := September; ts_day := 24 |};
        Some {| ts_year := 2020; ts_month := May; ts_day := 1 |} ]
  ∧ (Clean.month_added
       <$> cleaned Readers.to_datetime
             [Samples.undated; Samples.series; Samples.padded])
    = [None; Some "September"; Some "May"]
  ∧ (load_and_clean_data Readers.to_datetime
       (λ _, inr [Samples.undated; Samples.series; Samples.padded])
       filepath {| stdout := []; files := [] |}).1
    = Returned (loaded Readers.to_datetime
                  [Samples.undated; Samples.series; Samples.padded]).
Proof.
  pose proof (cleaned_dates_and_derived_fields Readers.to_datetime
                [Samples.undated; Samples.series; Samples.padded])
    as (_ & _ & Hrun & _ & _ & _ & _ & Hall).
  split; [|split; [reflexivity|split; [reflexivity|]]].
  - eapply Forall_impl; [exact Hall|]. by intros r (_ & _ & _ & Hy & _).
  - apply Hrun. discriminate.
Defined.

(** C1, as stated, fails: a row whose date cell holds text that is not a date
    is kept by line 30 and gets a null date on line 34. *)
Lemma cleaned_date_added_may_be_null :
  ¬ Forall (λ r, Clean.date_added r ≠ None ∧ Clean.rating r ≠ None)
      (cleaned Readers.to_datetime [Samples.undated]).
Proof.
  intros Hall. apply Forall_inv in Hall as [Hdate _]. by apply Hdate.
Qed.

(** C1, amended: the records of the cleaned frame are the records that were
    read with both a date_added and a rating cell, in their order; each has a
    non-null rating, and its date_added is the parse of the stripped date cell
    (null exactly when that parse fails).  The rows without one of the two
    cells are removed before the derived columns are computed: year_added and
    month_added are computed from the kept rows alone. *)
Theorem cleaned_drops_before_deriving
    (to_datetime : string → option Timestamp) (df : Raw.frame) :
  cleaned to_datetime df
  = (λ r0, derive to_datetime (fill_missing r0)) <$> filter has_date_and_rating df
  ∧ Clean.year_added <$> cleaned to_datetime df
    = (λ r0, ts_year <$> parse_date to_datetime (Raw.date_added r0))
      <$> filter has_date_and_rating df
  ∧ Clean.month_added <$> cleaned to_datetime df
    = (λ r0, (λ t, Pandas.month_name (ts_month t))
             <$> parse_date to_datetime (Raw.date_added r0))
      <$> filter has_date_and_rating df
  ∧ Forall (λ r,
      Clean.rating r ≠ None
      ∧ ∃ r0 s, r0 ∈ df ∧ Raw.date_added r0 = Some s
                ∧ Raw.rating r0 = Clean.rating r
                ∧ Clean.date_added r = to_datetime (Str.strip s))
    (cleaned to_datetime df).
Proof.
  rewrite cleaned_unfold, <- !list_fmap_compose.
  split; [done|]. split; [done|]. split; [done|].
  apply Forall_forall. intros r (r0 & -> & [Hk Hin]%list_elem_of_filter)%list_elem_of_fmap.
  destruct Hk as [[s Hs] [q Hq]]. simpl. rewrite Hq. split; [done|].
  exists r0, s. repeat split; try done.
  unfold parse_date, Pandas.str_strip. by rewrite Hs.
Qed.

Lemma cleaned_drops_before_deriving_witness :
  Clean.year_added
    <$> cleaned Readers.to_datetime
          [Samples.unrated; Samples.undated; Samples.documentary]
  = [None; Some 2021].
Proof.
  pose proof (cleaned_drops_before_deriving Readers.to_datetime
                [Samples.unrated; Samples.undated; Samples.documentary])
    as (_ & -> & _).
  reflexivity.
Defined.

(** ** The report stages *)

Lemma count_of_dropna_fmap {A K} `{EqDecision K}
    (f : A → option K) (x : K) (l : list A) :
  Pandas.count_of x (Pandas.dropna (f <$> l))
  = length (filter (λ a, f a = Some x) l).
Proof.
  induction l as [|a l IH]; [done|].
  rewrite fmap_cons, filter_cons. destruct (f a) as [k|] eqn:Hk.
  - change (Pandas.dropna (Some k :: (f <$> l)))
      with (k :: Pandas.dropna (f <$> l)).
    rewrite count_of_cons, IH.
    destruct (decide (k = x)) as [->|Hne].
    + by rewrite decide_True.
    + rewrite decide_False; [done|]. by intros [= ->].
  - rewrite dropna_cons_None, IH. by rewrite decide_False.
Qed.

Lemma length_dropna_fmap {A K} (f : A → option K) (l : list A) :
  length (Pandas.dropna (f <$> l)) = length (filter (λ a, f a ≠ None) l).
Proof.
  induction l as [|a l IH]; [done|].
  rewrite fmap_cons, filter_cons. destruct (f a) as [k|] eqn:Hk.
  - rewrite decide_True by done. simpl.
    change (Pandas.dropna (Some k :: (f <$> l)))
      with (k :: Pandas.dropna (f <$> l)).
    simpl. by rewrite IH.
  - rewrite dropna_cons_None, IH. by rewrite decide_False by (by intros []).
Qed.

(** What a stage leaves on the console does not depend on its chart. *)
Lemma savefig_stdout render name c w :
  stdout (savefig render name c w).2 = stdout w.
Proof. unfold savefig. by destruct (render _). Qed.

Ltac stage_stdout :=
  intros; unfold mbind, M_bind, print; simpl;
  rewrite savefig_stdout; simpl; by rewrite <- ?app_assoc.

(** C7, as stated, fails: a record with an empty type cell is in the cleaned
    frame and in no count. *)
Lemma type_counts_may_miss_rows :
  sum_list ((type_counts (cleaned Readers.to_datetime [Samples.untyped])).*2)
  ≠ length (cleaned Readers.to_datetime [Samples.untyped]).
Proof. vm_compute. discriminate. Qed.

(** C7, amended: the Category Counter's counts add up to the number of
    records whose type is not null, which is the row count of the frame when
    no type is null; each count is the number of records of that type; the
    printed list is in decreasing order of count. *)
Theorem type_counts_sum_and_order `{Pandas.Library} (df : Clean.frame) :
  sum_list ((type_counts df).*2)
  = length (filter (λ r, Clean.type r ≠ None) df)
  ∧ (Forall (λ r, Clean.type r ≠ None) df →
     sum_list ((type_counts df).*2) = length df)
  ∧ (∀ t n, (t, n) ∈ type_counts df
       ↔ (0 < n)%nat ∧ n = length (filter (λ r, Clean.type r = Some t) df))
  ∧ StronglySorted Pandas.descending (type_counts df)
  ∧ (∀ render w,
       stdout (analyze_movies_vs_tv_shows render df w).2
       = stdout w ++ [Text (nl +:+ "--- Movies vs TV Shows ---");
                      CountsByName (type_counts df)]).
Proof.
  unfold type_counts. rewrite value_counts_sum, length_dropna_fmap.
  split; [done|]. split; [|split; [|split]].
  - intros Hall. by rewrite filter_all.
  - intros t n. rewrite elem_of_value_counts, <- count_of_pos.
    rewrite count_of_dropna_fmap. split; [by intros [? ->] | by intros [? ->]].
  - apply value_counts_sorted.
  - unfold analyze_movies_vs_tv_shows. stage_stdout.
Qed.

Lemma type_counts_sum_and_order_witness :
  let df := cleaned Readers.to_datetime
              [Samples.documentary; Samples.series; Samples.short_film] in
  type_counts df = [("Movie", 2%nat); ("TV Show", 1%nat)]
  ∧ sum_list ((type_counts df).*2) = length df.
Proof.
  intros df. split; [reflexivity|].
  apply (type_counts_sum_and_order df).
  subst df. vm_compute. repeat constructor; discriminate.
Defined.

(** C6: the Temporal Aggregator's result has one entry per year that some
    record was added in, in strictly increasing order of year; the entry
    counts the records added in that year; records with a null year_added are
    in no group, so the counts add up to the number of records with a
    year. *)
Theorem data_by_year_groups_ascending (df : Clean.frame) :
  StronglySorted Z.lt ((data_by_year df).*1)
  ∧ (∀ y n, (y, n) ∈ data_by_year df
       ↔ (0 < n)%nat
         ∧ n = length (filter (λ r, Clean.year_added r = Some y) df))
  ∧ sum_list ((data_by_year df).*2)
    = length (filter (λ r, Clean.year_added r ≠ None) df).
Proof.
  unfold data_by_year. split; [apply groupby_size_ascending|]. split.
  - intros y n. rewrite elem_of_groupby_size, <- count_of_pos.
    rewrite count_of_dropna_fmap. split; [by intros [? ->] | by intros [? ->]].
  - by rewrite groupby_size_sum, length_dropna_fmap.
Qed.

Example data_by_year_ex :
  data_by_year (cleaned Readers.to_datetime
    [Samples.documentary; Samples.undated; Samples.short_film; Samples.series])
  = [(2020, 1%nat); (2021, 2%nat)].
Proof. reflexivity. Qed.

(** *** The Genre Splitter *)

Lemma exploded_genres_cons (r : Clean.row) (df : Clean.frame) :
  exploded_genres (r :: df) = listed_genres r ++ exploded_genres df.
Proof.
  unfold exploded_genres, Pandas.split_expand_stack, listed_genres.
  rewrite !fmap_cons. by destruct (Clean.listed_in r).
Qed.

Lemma exploded_genres_app (df1 df2 : Clean.frame) :
  exploded_genres (df1 ++ df2) = exploded_genres df1 ++ exploded_genres df2.
Proof.
  induction df1 as [|r df1 IH]; [done|].
  by rewrite <- app_comm_cons, !exploded_genres_cons, IH, app_assoc.
Qed.

Lemma genres_sum `{Pandas.Library} (df : Clean.frame) :
  sum_list ((genres df).*2)
  = sum_list ((λ r, length (listed_genres r)) <$> df).
Proof.
  unfold genres. rewrite value_counts_sum, dropna_Some.
  induction df as [|r df IH]; [done|].
  rewrite exploded_genres_cons, length_app, fmap_cons, IH. done.
Qed.

Lemma listed_genres_null (r : Clean.row) :
  Clean.listed_in r = None → listed_genres r = [].
Proof. unfold listed_genres. by intros ->. Qed.

Lemma listed_genres_length (r : Clean.row) :
  Clean.listed_in r ≠ None → (1 ≤ length (listed_genres r))%nat.
Proof.
  unfold listed_genres. destruct (Clean.listed_in r) as [s|]; [|done].
  intros _. apply split_length.
Qed.

(** What the genre counts show for a genre is the number of times records
    list it. *)
Lemma count_in_genres `{Pandas.Library} (g : string) (df : Clean.frame) :
  Pandas.count_in (genres df) g = Pandas.count_of g (exploded_genres df).
Proof. unfold genres. by rewrite count_in_value_counts, dropna_Some. Qed.

(** What the Genre Splitter does with the [.str] accessor of the genre
    column. *)
Lemma identify_top_genres_run `{Pandas.Library} render (df : Clean.table) w :
  identify_top_genres render df w
  = match Clean.listed_in_dtype df with
    | object =>
        savefig render "top_genres.png"
          (Barplot (Pandas.head 10 (genres (Clean.rows df))))
          {| stdout := stdout w
               ++ [ Text (nl +:+ "--- Top Genres ---");
                    Text "Top 10 Genres:";
                    CountsByName (Pandas.head 10 (genres (Clean.rows df))) ];
             files := files w |}
    | float64 =>
        (Raised (OtherException Pandas.str_accessor_message),
         {| stdout := stdout w ++ [Text (nl +:+ "--- Top Genres ---")];
            files := files w |})
    end.
Proof.
  unfold identify_top_genres, str_accessor, print, mbind, M_bind.
  destruct (Clean.listed_in_dtype df); simpl; [|done].
  by rewrite <- !app_assoc.
Qed.

(** C3, as stated, fails: a record with an empty genre cell is a row of the
    frame and adds to no count.  With another record that has a genre in the
    frame, the Genre Splitter runs through, and its counts add up to less
    than the row count. *)
Lemma genre_counts_may_fall_short :
  (identify_top_genres (λ _, None)
     (loaded Readers.to_datetime [Samples.unlisted; Samples.documentary])
     {| stdout := []; files := [] |}).1 = Returned ()
  ∧ genres (cleaned Readers.to_datetime [Samples.unlisted; Samples.documentary])
    = [("Documentaries", 1%nat)]
  ∧ ¬ (length (cleaned Readers.to_datetime
                 [Samples.unlisted; Samples.documentary])
       ≤ sum_list ((genres (cleaned Readers.to_datetime
                              [Samples.unlisted; Samples.documentary])).*2))%nat.
Proof. split; [reflexivity|]. split; [reflexivity|]. vm_compute. lia. Qed.

(** C3, amended: for a cleaned frame in which no record's genre field is
    null, the genre counts add up to at least the row count, and to exactly
    the row count if and only if every record lists exactly one genre.  In any
    frame, a record whose genre field is "Comedy, Drama" adds one to the count
    of "Comedy", one to the count of "Drama", and nothing to any other
    count. *)
Theorem genre_counts_cover_rows `{Pandas.Library} (df : Clean.frame) :
  (Forall (λ r, Clean.listed_in r ≠ None) df →
     (length df ≤ sum_list ((genres df).*2))%nat
     ∧ (sum_list ((genres df).*2) = length df
        ↔ Forall (λ r, length (listed_genres r) = 1%nat) df))
  ∧ (∀ (df1 df2 : Clean.frame) r,
       df = df1 ++ r :: df2 →
       Clean.listed_in r = Some "Comedy, Drama" →
       Pandas.count_in (genres df) "Comedy"
       = S (Pandas.count_in (genres (df1 ++ df2)) "Comedy")
       ∧ Pandas.count_in (genres df) "Drama"
         = S (Pandas.count_in (genres (df1 ++ df2)) "Drama")
       ∧ ∀ g, g ≠ "Comedy" → g ≠ "Drama" →
           Pandas.count_in (genres df) g
           = Pandas.count_in (genres (df1 ++ df2)) g).
Proof.
  split.
  - rewrite genres_sum. induction 1 as [|r df Hr Hall [IHle IHeq]].
    + split; [done|]. split; [constructor | done].
    + apply listed_genres_length in Hr.
      rewrite fmap_cons. simpl. split; [lia|].
      rewrite Forall_cons. split.
      * intros Hsum. assert (length (listed_genres r) = 1%nat) by lia.
        split; [done|]. apply IHeq. lia.
      * intros [Hone Hrest]. apply IHeq in Hrest. lia.
  - intros df1 df2 r -> Hr.
    assert (listed_genres r = ["Comedy"; "Drama"]) as Hpieces.
    { unfold listed_genres. by rewrite Hr. }
    assert (∀ g, Pandas.count_in (genres (df1 ++ r :: df2)) g
      = (Pandas.count_of g ["Comedy"; "Drama"]
         + Pandas.count_in (genres (df1 ++ df2)) g)%nat) as Hcount.
    { intros g. rewrite !count_in_genres, !exploded_genres_app.
      rewrite exploded_genres_cons, Hpieces, !count_of_app. lia. }
    split; [by rewrite Hcount|]. split; [by rewrite Hcount|].
    intros g Hc Hd. rewrite Hcount, !count_of_cons, count_of_nil.
    by rewrite !decide_False by done.
Qed.

Lemma genre_counts_cover_rows_witness :
  let df := cleaned Readers.to_datetime [Samples.documentary; Samples.series] in
  genres df ≡ₚ [("Documentaries", 1%nat); ("Comedy", 1%nat); ("Drama", 1%nat)]
  ∧ (length df ≤ sum_list ((genres df).*2))%nat
  ∧ Pandas.count_in (genres df) "Drama"
    = S (Pandas.count_in
           (genres (cleaned Readers.to_datetime [Samples.documentary])) "Drama").
Proof.
  intros df. split; [by vm_compute|].
  destruct (genre_counts_cover_rows df) as [Hsum Hone]. split.
  - apply Hsum. subst df. vm_compute. repeat constructor; discriminate.
  - apply (Hone (cleaned Readers.to_datetime [Samples.documentary]) []
             (derive Readers.to_datetime (fill_missing Samples.series)));
      reflexivity.
Defined.

(** C10, as stated, fails: when no record of the file has a genre, the
    genre column is not a text column and line 74 raises on it: the Genre
    Splitter stops after its heading, with no counts and no chart. *)
Lemma null_genre_column_raises :
  (identify_top_genres (λ _, None)
     (loaded Readers.to_datetime [Samples.unlisted])
     {| stdout := []; files := [] |}).1 ≠ Returned ()
  ∧ (identify_top_genres (λ _, None)
       (loaded Readers.to_datetime [Samples.unlisted])
       {| stdout := []; files := [] |}).2
    = {| stdout := [Text (nl +:+ "--- Top Genres ---")]; files := [] |}.
Proof. split; [discriminate | reflexivity]. Qed.

(** C10, amended: a record whose genre field is null adds nothing to any
    genre count: the counts with the record are the counts without it, and
    they add up to the numbers of genres listed by the records whose genre
    field is not null, which is at least the number of these records and can
    be less than the row count.  Such a record raises nothing as long as some
    record of the file that was read has a genre (or the file has no record):
    the Genre Splitter then runs through.  When the file has records and none
    has a genre, the Genre Splitter raises on line 74, after its heading and
    before any count. *)
Theorem null_genre_counts_nothing `{Pandas.Library} (df : Clean.frame) :
  sum_list ((genres df).*2)
  = sum_list ((λ r, match Clean.listed_in r with
                    | Some s => length (Str.split ", " s)
                    | None => 0%nat
                    end) <$> df)
  ∧ (length (filter (λ r, Clean.listed_in r ≠ None) df)
     ≤ sum_list ((genres df).*2))%nat
  ∧ (∀ (df1 df2 : Clean.frame) r,
       df = df1 ++ r :: df2 → Clean.listed_in r = None →
       genres df = genres (df1 ++ df2))
  ∧ (∀ to_datetime (raw : Raw.frame) w,
       raw = [] ∨ (∃ r0, r0 ∈ raw ∧ is_Some (Raw.listed_in r0)) →
       (identify_top_genres (λ _, None) (loaded to_datetime raw) w).1
       = Returned ())
  ∧ (∀ to_datetime (raw : Raw.frame) render w,
       raw ≠ [] → Forall (λ r0, Raw.listed_in r0 = None) raw →
       identify_top_genres render (loaded to_datetime raw) w
       = (Raised (OtherException Pandas.str_accessor_message),
          {| stdout := stdout w ++ [Text (nl +:+ "--- Top Genres ---")];
             files := files w |}))
  ∧ (sum_list ((genres (cleaned Readers.to_datetime
                  [Samples.unlisted; Samples.documentary])).*2)
     < length (cleaned Readers.to_datetime
                 [Samples.unlisted; Samples.documentary]))%nat.
Proof.
  assert (∀ r, length (listed_genres r)
               = match Clean.listed_in r with
                 | Some s => length (Str.split ", " s)
                 | None => 0%nat
                 end) as Hlisted.
  { intros r. unfold listed_genres. by destruct (Clean.listed_in r). }
  split; [|split; [|split; [|split; [|split]]]].
  - rewrite genres_sum. apply (f_equal sum_list), list_fmap_ext.
    intros _ r _. apply Hlisted.
  - rewrite genres_sum. induction df as [|r df IH]; [done|].
    rewrite fmap_cons, filter_cons. simpl.
    destruct (decide (Clean.listed_in r ≠ None)) as [Hr|Hr]; simpl; [|lia].
    apply listed_genres_length in Hr. lia.
  - intros df1 df2 r -> Hr. unfold genres.
    rewrite !exploded_genres_app, exploded_genres_cons.
    by rewrite listed_genres_null.
  - intros to_datetime raw w Hraw. rewrite identify_top_genres_run.
    assert (Clean.listed_in_dtype (loaded to_datetime raw) = object) as ->.
    { by apply read_dtype_object. }
    reflexivity.
  - intros to_datetime raw render w Hne Hall. rewrite identify_top_genres_run.
    assert (Clean.listed_in_dtype (loaded to_datetime raw) = float64) as ->.
    { by apply read_dtype_float64. }
    reflexivity.
  - rewrite genres_sum. vm_compute. lia.
Qed.

Lemma null_genre_counts_nothing_witness :
  genres (cleaned Readers.to_datetime [Samples.unlisted; Samples.series])
  = genres (cleaned Readers.to_datetime [Samples.series])
  ∧ (identify_top_genres (λ _, None)
       (loaded Readers.to_datetime [Samples.unlisted; Samples.series])
       {| stdout := []; files := [] |}).1 = Returned ().
Proof.
  destruct (null_genre_counts_nothing
              (cleaned Readers.to_datetime [Samples.unlisted; Samples.series]))
    as (_ & _ & Hnull & Hrun & _).
  split.
  - apply (Hnull [] (cleaned Readers.to_datetime [Samples.series])
             (derive Readers.to_datetime (fill_missing Samples.unlisted)));
      reflexivity.
  - apply Hrun. right. exists Samples.series. split; [|by eexists].
    right. left.
Defined.

(** *** The Numeric Extractor *)

Lemma dropna_fmap {A B} (f : A → option B) (l : list A) :
  Pandas.dropna (f <$> l) = omap f l.
Proof.
  induction l as [|a l IH]; [done|].
  unfold Pandas.dropna in *. csimpl. rewrite IH. by destruct (f a).
Qed.

Lemma duration_min_unfold to_numeric (r : Clean.row) :
  duration_min to_numeric r
  = Clean.duration r ≫= λ d, to_numeric (Str.replace " min" "" d).
Proof. unfold duration_min, Pandas.str_replace. by destruct (Clean.duration r). Qed.

(** On a run of digits followed by [" min"], removing every [" min"] and
    removing a trailing [" min"] both leave the digits. *)
Lemma digits_then_unit acc n v :
  Readers.digits_value acc n = Some v →
  Str.replace " min" "" (n +:+ " min") = n
  ∧ Str.removesuffix " min" (n +:+ " min") = n.
Proof.
  revert acc. induction n as [|c n IH]; intros acc Hv; [done|].
  simpl in Hv. destruct (Ascii.is_nat c) as [d|] eqn:Hd; [|done].
  destruct (IH _ Hv) as [IHr IHs].
  assert (c ≠ " "%char) as Hc by (by intros ->).
  unfold Str.replace in *. split.
  - change (String c n +:+ " min") with (String c (n +:+ " min")).
    simpl. rewrite decide_False by done. by rewrite IHr.
  - change (String c n +:+ " min") with (String c (n +:+ " min")).
    simpl. rewrite decide_False by (by intros [= ? _]). by rewrite IHs.
Qed.

(** C4, as stated, fails: the unit is removed wherever it stands, not only
    at the end, so a duration cell "1 min5" enters the distribution as 15,
    where removing a trailing unit would have left a cell that is not a
    number. *)
Lemma runtime_unit_removed_anywhere :
  runtime_distribution Readers.to_numeric
    (cleaned Readers.to_datetime [Samples.odd_duration]) = [(15 # 1)%Q]
  ∧ spec_runtime_distribution Readers.to_numeric
      (cleaned Readers.to_datetime [Samples.odd_duration]) = [].
Proof. split; reflexivity. Qed.

(** C4, amended: the Numeric Extractor keeps the records whose type is
    "Movie", removes every occurrence of " min" from the duration cell (for a
    cell that is digits followed by " min" this is removing the trailing
    unit), converts what remains to a number, and leaves out what does not
    convert: the distribution holds, in row order, exactly the numbers so
    obtained from Movie records.  For a Movie-only frame with the duration
    cells "90 min" and "45 min" it is 90, 45. *)
Theorem runtime_distribution_of_movies
    (to_numeric : string → option Q) (df : Clean.frame) :
  runtime_distribution to_numeric df
  = omap (λ r, Clean.duration r ≫= λ d, to_numeric (Str.replace " min" "" d))
      (filter (λ r, Clean.type r = Some "Movie") df)
  ∧ (∀ v, v ∈ runtime_distribution to_numeric df
       ↔ ∃ r d, r ∈ df ∧ Clean.type r = Some "Movie"
                ∧ Clean.duration r = Some d
                ∧ to_numeric (Str.replace " min" "" d) = Some v)
  ∧ (∀ n v, Readers.decimal n = Some v →
       Str.replace " min" "" (n +:+ " min") = n
       ∧ Str.removesuffix " min" (n +:+ " min") = n)
  ∧ (to_numeric "90" = Some (inject_Z 90) →
     to_numeric "45" = Some (inject_Z 45) →
     Forall (λ r, Clean.type r = Some "Movie") df →
     Clean.duration <$> df = [Some "90 min"; Some "45 min"] →
     runtime_distribution to_numeric df = [inject_Z 90; inject_Z 45]).
Proof.
  assert (runtime_distribution to_numeric df
    = omap (λ r, Clean.duration r ≫= λ d, to_numeric (Str.replace " min" "" d))
        (filter (λ r, Clean.type r = Some "Movie") df)) as Heq.
  { unfold runtime_distribution, movies. rewrite dropna_fmap.
    apply list_omap_ext, Forall2_same_length_lookup_2; [done|].
    intros i r r' Hr Hr'. rewrite Hr in Hr'. injection Hr' as <-.
    apply duration_min_unfold. }
  split; [done|]. split; [|split].
  - intros v. rewrite Heq, list_elem_of_omap. split.
    + intros (r & [Hty Hin]%list_elem_of_filter & Hv).
      destruct (Clean.duration r) as [d|] eqn:Hd; [|done].
      by exists r, d.
    + intros (r & d & Hin & Hty & Hd & Hv). exists r.
      split; [by apply list_elem_of_filter|]. by rewrite Hd.
  - intros n v Hn. destruct n as [|c n]; [done|].
    by apply (digits_then_unit 0 _ v).
  - intros H90 H45 Hall Hdur. rewrite Heq, filter_all by done.
    destruct df as [|r1 [|r2 [|r3 df]]]; try done.
    injection Hdur as Hd1 Hd2. simpl. rewrite Hd1, Hd2. simpl.
    change (Str.replace " min" "" "90 min") with "90".
    change (Str.replace " min" "" "45 min") with "45".
    by rewrite H90, H45.
Qed.

Lemma runtime_distribution_of_movies_witness :
  runtime_distribution Readers.to_numeric
    (cleaned Readers.to_datetime [Samples.documentary; Samples.short_film])
  = [inject_Z 90; inject_Z 45]
  ∧ Str.replace " min" "" ("120" +:+ " min") = "120".
Proof.
  destruct (runtime_distribution_of_movies Readers.to_numeric
              (cleaned Readers.to_datetime
                 [Samples.documentary; Samples.short_film]))
    as (_ & _ & Hunit & Hex).
  split.
  - apply Hex; [reflexivity | reflexivity | | reflexivity].
    vm_compute. repeat constructor.
  - apply (Hunit "120" 120). reflexivity.
Defined.

(** What the Numeric Extractor does with the [.str] accessor of the
    duration column. *)
Lemma analyze_runtime_run `{Pandas.Library} to_numeric render
    (df : Clean.table) w :
  analyze_runtime to_numeric render df w
  = match Clean.duration_dtype df with
    | object =>
        savefig render "movie_duration_dist.png"
          (Histplot (runtime_distribution to_numeric (Clean.rows df)))
          {| stdout := stdout w ++ [Text (nl +:+ "--- Runtime Analysis ---")];
             files := files w |}
    | float64 =>
        (Raised (OtherException Pandas.str_accessor_message),
         {| stdout := stdout w ++ [Text (nl +:+ "--- Runtime Analysis ---")];
            files := files w |})
    end.
Proof.
  unfold analyze_runtime, str_accessor, print, mbind, M_bind.
  by destruct (Clean.duration_dtype df).
Qed.

(** *** The Top-N Ranker *)

Lemma length_value_counts `{Pandas.Library} {K} `{EqDecision K}
    (s : list (option K)) :
  length (Pandas.value_counts s) = length (Pandas.unique (Pandas.dropna s)).
Proof.
  rewrite value_counts_perm. unfold Pandas.tally. by rewrite length_fmap.
Qed.




(** ** The top level *)

Section MainFacts.
Context {lib : Pandas.Library}.
Context (to_datetime : string → option Timestamp).
Context (to_numeric : string → option Q).
Context (read_csv : string → exn + Raw.frame).
Context (render : artifact → option exn).

#[local] Abbreviation run_main := (main to_datetime to_numeric read_csv render).
#[local] Abbreviation run_body :=
  (main_body to_datetime to_numeric read_csv render).


(** The read failed: nothing is drawn, the exception leaves the [try]
    block after the first line of output. *)
Lemma main_body_read_failed e w :
  read_csv filepath = inl e →
  run_body w
  = (Raised e,
     {| stdout := stdout w
                  ++ [Text ("Loading data from " +:+ filepath +:+ "...")];
        files := files w |}).
Proof.
  intros Hread.
  unfold main_body, load_and_clean_data, pd_read_csv, mbind, M_bind, print, raise.
  simpl. by rewrite Hread.
Qed.

(** The read succeeded and the date column holds nothing: the exception of
    line 33 leaves the [try] block, and no stage is reached. *)
Lemma main_body_no_date df w :
  read_csv filepath = inr df →
  Pandas.read_dtype (Raw.date_added <$> df) = float64 →
  run_body w
  = (Raised (OtherException Pandas.str_accessor_message),
     {| stdout := stdout w
          ++ [ Text ("Loading data from " +:+ filepath +:+ "...");
               Text (nl +:+ "Missing values before cleaning:");
               NullCounts (raw_isnull_sum df) ];
        files := files w |}).
Proof.
  intros Hread Hdate. unfold main_body, mbind, M_bind.
  by rewrite (load_and_clean_data_raises _ _ _ df).
Qed.

(** The stages of the [try] block, after the loader has returned. *)
Lemma main_body_loaded df w :
  read_csv filepath = inr df →
  Pandas.read_dtype (Raw.date_added <$> df) = object →
  run_body w
  = (analyze_movies_vs_tv_shows render (cleaned to_datetime df);;
     analyze_content_growth render (cleaned to_datetime df);;
     identify_top_genres render (loaded to_datetime df);;
     analyze_runtime to_numeric render (loaded to_datetime df);;
     analyze_release_years render (cleaned to_datetime df);;
     print (Text (nl +:+ "Analysis complete. Plots saved as PNG files.")))
      {| stdout := stdout w
           ++ [ Text ("Loading data from " +:+ filepath +:+ "...");
                Text (nl +:+ "Missing values before cleaning:");
                NullCounts (raw_isnull_sum df);
                Text (nl +:+ "Missing values after cleaning:");
                NullCounts (clean_isnull_sum (cleaned to_datetime df)) ];
         files := files w |}.
Proof.
  intros Hread Hdate. unfold main_body. unfold mbind at 1. unfold M_bind at 1.
  by rewrite (load_and_clean_data_returns _ _ _ df).
Qed.

Ltac run_stage :=
  cbn -[cleaned data_by_year genres runtime_distribution release_years
        type_counts Pandas.tally Pandas.dropna Pandas.head Pandas.read_dtype
        raw_isnull_sum clean_isnull_sum].





(** What a run prints when nothing fails, in order. *)
Lemma main_body_success df w :
  read_csv filepath = inr df →
  Pandas.read_dtype (Raw.date_added <$> df) = object →
  Pandas.read_dtype (Raw.listed_in <$> df) = object →
  Pandas.read_dtype (Raw.duration <$> df) = object →
  Forall (λ a, render a = None) (charts to_numeric (cleaned to_datetime df)) →
  run_body w
  = (Returned (),
     {| stdout := stdout w ++
          [ Text ("Loading data from " +:+ filepath +:+ "...");
            Text (nl +:+ "Missing values before cleaning:");
            NullCounts (raw_isnull_sum df);
            Text (nl +:+ "Missing values after cleaning:");
            NullCounts (clean_isnull_sum (cleaned to_datetime df));
            Text (nl +:+ "--- Movies vs TV Shows ---");
            CountsByName (type_counts (cleaned to_datetime df));
            Text (nl +:+ "--- Content Growth Over Time ---");
            Text (nl +:+ "--- Top Genres ---");
            Text "Top 10 Genres:";
            CountsByName (Pandas.head 10 (genres (cleaned to_datetime df)));
            Text (nl +:+ "--- Runtime Analysis ---");
            Text (nl +:+ "--- Top Release Years ---");
            CountsByYear (release_years (cleaned to_datetime df));
            Text (nl +:+ "Analysis complete. Plots saved as PNG files.") ];
        files := files w ++ charts to_numeric (cleaned to_datetime df) |}).
Proof.
  intros Hread Hdate Hgenre Hduration Hall. unfold charts in Hall.
  rewrite !Forall_cons in Hall.
  destruct Hall as (H1 & H2 & H3 & H4 & H5 & _).
  rewrite (main_body_loaded df w Hread Hdate).
  unfold analyze_movies_vs_tv_shows, analyze_content_growth,
    identify_top_genres, analyze_runtime, analyze_release_years, str_accessor.
  unfold mbind, M_bind, mret, M_ret, print, raise, savefig, charts.
  unfold loaded. run_stage.
  rewrite H1. run_stage. rewrite H2. run_stage.
  rewrite Hgenre. run_stage. rewrite H3. run_stage.
  rewrite Hduration. run_stage. rewrite H4. run_stage.
  rewrite H5. run_stage.
  by rewrite <- !app_assoc.
Qed.

End MainFacts.



(** * Further properties of the script *)

(** ** The Loader/Cleaner, continued *)

Lemma isnull_sum_zero {A B} (f : A → option B) (l : list A) :
  Forall (λ a, f a ≠ None) l → Pandas.isnull_sum (f <$> l) = 0%nat.
Proof.
  induction 1 as [|a l Ha _ IH]; [done|].
  unfold Pandas.isnull_sum in *. rewrite fmap_cons, filter_cons_False by done.
  exact IH.
Qed.

Lemma isnull_sum_fmap {A B} (f : A → option B) (l : list A) :
  Pandas.isnull_sum (f <$> l) = length (filter (λ a, f a = None) l).
Proof.
  unfold Pandas.isnull_sum. induction l as [|a l IH]; [done|].
  rewrite fmap_cons, !filter_cons.
  destruct (decide (f a = None)); simpl; by rewrite IH.
Qed.

Lemma isnull_sum_cleaned {B} to_datetime (g : Clean.row → option B)
    (P : Raw.row → Prop) `{∀ x, Decision (P x)} (df : Raw.frame) :
  (∀ r0, g (derive to_datetime (fill_missing r0)) = None ↔ P r0) →
  Pandas.isnull_sum (g <$> cleaned to_datetime df)
  = length (filter P (filter has_date_and_rating df)).
Proof.
  intros HP. rewrite cleaned_unfold, <- list_fmap_compose, isnull_sum_fmap.
  f_equal. apply list_filter_iff. intros r0. apply HP.
Qed.

(** X1: when the date column is text, the report printed last by the
    loader is the one under "Missing values after cleaning" (when it holds
    nothing, line 33 raises and the report before cleaning stays the last
    one); in that report the columns director, cast, country and rating show
    no missing value, and date_added, year_added and month_added show the same
    number: the number of kept rows whose date did not parse. *)
Theorem missing_values_after_cleaning `{Pandas.Library}
    (to_datetime : string → option Timestamp) (df : Raw.frame) :
  (∀ read_csv path w, read_csv path = inr df →
     last (stdout (load_and_clean_data to_datetime read_csv path w).2)
     = Some (NullCounts
               match Pandas.read_dtype (Raw.date_added <$> df) with
               | object => clean_isnull_sum (cleaned to_datetime df)
               | float64 => raw_isnull_sum df
               end))
  ∧ ("director", 0%nat) ∈ clean_isnull_sum (cleaned to_datetime df)
  ∧ ("cast", 0%nat) ∈ clean_isnull_sum (cleaned to_datetime df)
  ∧ ("country", 0%nat) ∈ clean_isnull_sum (cleaned to_datetime df)
  ∧ ("rating", 0%nat) ∈ clean_isnull_sum (cleaned to_datetime df)
  ∧ ∃ n,
      n = length (filter (λ r0, parse_date to_datetime (Raw.date_added r0) = None)
                    (filter has_date_and_rating df))
      ∧ ("date_added", n) ∈ clean_isnull_sum (cleaned to_datetime df)
      ∧ ("year_added", n) ∈ clean_isnull_sum (cleaned to_datetime df)
      ∧ ("month_added", n) ∈ clean_isnull_sum (cleaned to_datetime df).
Proof.
  assert (Forall (λ r, Clean.director r ≠ None ∧ Clean.cast r ≠ None
                       ∧ Clean.country r ≠ None ∧ Clean.rating r ≠ None)
            (cleaned to_datetime df)) as Hall.
  { apply Forall_forall. intros r (r0 & _ & [_ [q Hq]] & ->)%elem_of_cleaned.
    simpl. rewrite Hq.
    by destruct (Raw.director r0), (Raw.cast r0), (Raw.country r0). }
  split.
  { intros read_csv path w Hread.
    destruct (Pandas.read_dtype (Raw.date_added <$> df)) eqn:Hdate.
    - rewrite (load_and_clean_data_returns _ _ _ df) by done. simpl.
      by rewrite last_app.
    - rewrite (load_and_clean_data_raises _ _ _ df) by done. simpl.
      by rewrite last_app. }
  unfold clean_isnull_sum.
  rewrite (isnull_sum_zero Clean.director), (isnull_sum_zero Clean.cast),
    (isnull_sum_zero Clean.country), (isnull_sum_zero Clean.rating)
    by (eapply Forall_impl; [exact Hall|]; naive_solver).
  split; [set_solver|]. split; [set_solver|].
  split; [set_solver|]. split; [set_solver|].
  exists (length (filter
            (λ r0, parse_date to_datetime (Raw.date_added r0) = None)
            (filter has_date_and_rating df))).
  split; [done|].
  rewrite (isnull_sum_cleaned to_datetime Clean.date_added
             (λ r0, parse_date to_datetime (Raw.date_added r0) = None)) by done.
  rewrite (isnull_sum_cleaned to_datetime Clean.year_added
             (λ r0, parse_date to_datetime (Raw.date_added r0) = None))
    by (intros r0; simpl; by destruct (parse_date _ _)).
  rewrite (isnull_sum_cleaned to_datetime Clean.month_added
             (λ r0, parse_date to_datetime (Raw.date_added r0) = None))
    by (intros r0; simpl; by destruct (parse_date _ _)).
  set_solver.
Qed.

Lemma missing_values_after_cleaning_witness :
  last (stdout (load_and_clean_data Readers.to_datetime
                  (λ _, inr [Samples.undated; Samples.series]) filepath
                  {| stdout := []; files := [] |}).2)
  = Some (NullCounts
            (clean_isnull_sum
               (cleaned Readers.to_datetime [Samples.undated; Samples.series])))
  ∧ ("year_added", 1%nat)
    ∈ clean_isnull_sum
        (cleaned Readers.to_datetime [Samples.undated; Samples.series]).
Proof.
  destruct (missing_values_after_cleaning Readers.to_datetime
              [Samples.undated; Samples.series]) as (Hlast & _).
  split; [by apply (Hlast (λ _, inr [Samples.undated; Samples.series]))|].
  vm_compute. do 9 right. left.
Defined.

(** X2: cleaning works row by row: the cleaned frame of two frames put one
    after the other is the two cleaned frames put one after the other, and
    cleaning never adds a row. *)
Theorem cleaned_row_by_row
    (to_datetime : string → option Timestamp) (df1 df2 : Raw.frame) :
  cleaned to_datetime (df1 ++ df2)
  = cleaned to_datetime df1 ++ cleaned to_datetime df2
  ∧ (length (cleaned to_datetime df1) ≤ length df1)%nat.
Proof.
  rewrite !cleaned_unfold, filter_app, fmap_app. split; [done|].
  rewrite length_fmap. apply length_filter.
Qed.

(** X3: filling the three text columns and dropping the rows without a date
    or a rating can be done in either order, and filling a second time
    changes nothing. *)
Theorem fill_and_drop_commute (df : Raw.frame) :
  drop_missing (fill_missing <$> df) = fill_missing <$> drop_missing df
  ∧ fill_missing <$> (fill_missing <$> df) = fill_missing <$> df.
Proof.
  split.
  - unfold drop_missing. induction df as [|r df IH]; [done|].
    rewrite fmap_cons, !filter_cons.
    destruct (decide (has_date_and_rating r)) as [Hk|Hk].
    + rewrite decide_True by done. by rewrite fmap_cons, IH.
    + by rewrite decide_False.
  - rewrite <- list_fmap_compose. apply list_fmap_ext. intros _ r _.
    unfold fill_missing. simpl.
    by destruct (Raw.director r), (Raw.cast r), (Raw.country r).
Qed.

(** ** Strings, continued *)

(** X6: stripping a stripped string changes nothing, and a string of white
    space only is stripped to the empty string. *)
Theorem strip_idempotent (s : string) :
  Str.strip (Str.strip s) = Str.strip s
  ∧ (Str.blank s = true → Str.strip s = "").
Proof.
  destruct (strip_spec s) as (_ & Hfirst & Hlast). split.
  - unfold Str.strip at 1. rewrite lstrip_fixed by done. by apply rstrip_fixed.
  - intros Hs. unfold Str.strip. by rewrite lstrip_blank.
Qed.

Lemma strip_idempotent_witness :
  Str.blank "   " = true ∧ Str.strip "   " = "".
Proof.
  split; [reflexivity|]. by apply (strip_idempotent "   ").
Defined.

Lemma join_split_witness :
  Str.join ", " (Str.split ", " "Comedy, Drama, , Kids,") = "Comedy, Drama, , Kids,".
Proof. by apply join_split. Defined.

Lemma startswith_shorter p v r :
  Str.startswith p (v +:+ r) = false → Str.startswith p v = false.
Proof.
  revert v. induction p as [|a p IH]; intros v; [done|].
  destruct v as [|b v]; [done|]. rewrite append_cons. simpl.
  destruct (decide (a = b)); [apply IH | done].
Qed.

Lemma starts_nowhere_shorter p acc t r :
  Str.starts_nowhere p acc (t +:+ r) → Str.starts_nowhere p acc t.
Proof.
  revert t. induction acc as [|c acc IH]; intros t; [done|].
  simpl. intros [Hc Hacc]. split.
  - by apply (startswith_shorter p (String c t) r).
  - by apply IH.
Qed.

Lemma starts_nowhere_occurs p acc t :
  Str.starts_nowhere p acc t → Str.occurs p t = false →
  Str.occurs p (Str.rev_onto t acc) = false.
Proof.
  revert t. induction acc as [|c acc IH]; intros t; [done|].
  simpl. intros [Hc Hacc] Ht. apply IH; [done|].
  simpl. simpl in Hc. by rewrite Hc, Ht.
Qed.

Lemma occurs_empty p : p ≠ "" → Str.occurs p "" = false.
Proof. by destruct p. Qed.

Lemma split_scan_pieces sep s k acc :
  sep ≠ "" →
  match k with O => Str.starts_nowhere sep acc s | S _ => acc = "" end →
  Forall (λ piece, Str.occurs sep piece = false) (Str.split_scan sep k acc s).
Proof.
  intros Hsep. revert k acc. induction s as [|c s IH]; intros k acc Hk.
  - simpl. constructor; [|constructor]. destruct k as [|k].
    + apply starts_nowhere_occurs; [done | by apply occurs_empty].
    + subst acc. by apply occurs_empty.
  - cbn [Str.split_scan]. destruct k as [|k].
    + destruct (Str.startswith sep (String c s)) eqn:Hstart.
      * constructor.
        -- apply starts_nowhere_occurs; [|by apply occurs_empty].
           by apply (starts_nowhere_shorter sep acc "" (String c s)).
        -- apply IH. by destruct (Nat.pred (String.length sep)).
      * apply IH. by split.
    + subst acc. apply IH. by destruct k.
Qed.

Lemma split_pieces sep s :
  sep ≠ "" → Forall (λ piece, Str.occurs sep piece = false) (Str.split sep s).
Proof. intros Hsep. by apply split_scan_pieces. Qed.

(** ** The report stages, continued *)

Lemma elem_of_exploded_genres (g : string) (df : Clean.frame) :
  g ∈ exploded_genres df ↔ ∃ r, r ∈ df ∧ g ∈ listed_genres r.
Proof.
  induction df as [|r df IH].
  - split; [by intros ?%elem_of_nil | by intros (r & ?%elem_of_nil & _)].
  - rewrite exploded_genres_cons, elem_of_app, IH. split.
    + intros [Hg|(r' & Hr' & Hg)]; [exists r | exists r']; split; try done.
      * by left.
      * by right.
    + intros (r' & [->|Hr']%elem_of_cons & Hg); [by left|].
      right. by exists r'.
Qed.

Lemma count_of_exploded_genres (g : string) (df : Clean.frame) :
  Pandas.count_of g (exploded_genres df)
  = sum_list ((λ r, Pandas.count_of g (listed_genres r)) <$> df).
Proof.
  induction df as [|r df IH]; [done|].
  by rewrite exploded_genres_cons, count_of_app, fmap_cons, IH.
Qed.

(** X5: no genre name the Genre Splitter counts contains the delimiter
    ", ". *)
Theorem genre_names_without_delimiter `{Pandas.Library} (df : Clean.frame) :
  Forall (λ e, Str.occurs ", " e.1 = false) (genres df).
Proof.
  apply Forall_forall. intros [g n] Hin. simpl.
  unfold genres in Hin. apply elem_of_value_counts in Hin as [Hg _].
  rewrite dropna_Some in Hg.
  apply elem_of_exploded_genres in Hg as (r & _ & Hg).
  unfold listed_genres, Pandas.str_split in Hg.
  destruct (Clean.listed_in r) as [s|]; simpl in Hg; [|by apply elem_of_nil in Hg].
  pose proof (split_pieces ", " s) as Hall.
  rewrite Forall_forall in Hall. by apply Hall.
Qed.

(** X7: the Genre Splitter ranks the genres by decreasing count and takes
    the first ten, or all of them if there are fewer; a genre it leaves out
    has a count no larger than any it takes; the count of a genre is the
    number of times the records list it.  When the genre column is text, the
    stage prints the ten under its two headings, and the bars of the chart
    are the printed list; when it is not, the stage raises after the first
    heading and neither prints a count nor writes a chart. *)
Theorem top_genres_ranked `{Pandas.Library} (df : Clean.table) :
  length (Pandas.head 10 (genres (Clean.rows df)))
  = (10 `min` length (Pandas.unique (exploded_genres (Clean.rows df))))%nat
  ∧ (∃ rest, genres (Clean.rows df)
             = Pandas.head 10 (genres (Clean.rows df)) ++ rest
       ∧ ∀ e e', e ∈ Pandas.head 10 (genres (Clean.rows df)) → e' ∈ rest →
                 (e'.2 ≤ e.2)%nat)
  ∧ StronglySorted Pandas.descending (Pandas.head 10 (genres (Clean.rows df)))
  ∧ (∀ g n, (g, n) ∈ genres (Clean.rows df)
       ↔ (0 < n)%nat
         ∧ n = sum_list ((λ r, Pandas.count_of g (listed_genres r))
                         <$> Clean.rows df))
  ∧ (Clean.listed_in_dtype df = object →
     (∀ render w,
        stdout (identify_top_genres render df w).2
        = stdout w ++ [Text (nl +:+ "--- Top Genres ---");
                       Text "Top 10 Genres:";
                       CountsByName (Pandas.head 10 (genres (Clean.rows df)))])
     ∧ (∀ w,
          files (identify_top_genres (λ _, None) df w).2
          = files w
            ++ [{| filename := "top_genres.png";
                   drawn := Barplot (Pandas.head 10
                                       (genres (Clean.rows df))) |}]))
  ∧ (Clean.listed_in_dtype df = float64 →
     ∀ render w,
       identify_top_genres render df w
       = (Raised (OtherException Pandas.str_accessor_message),
          {| stdout := stdout w ++ [Text (nl +:+ "--- Top Genres ---")];
             files := files w |})).
Proof.
  assert (StronglySorted Pandas.descending (genres (Clean.rows df))) as Hsorted
    by apply value_counts_sorted.
  assert (genres (Clean.rows df)
          = Pandas.head 10 (genres (Clean.rows df))
            ++ drop 10 (genres (Clean.rows df)))
    as Hsplit by (symmetry; apply take_drop).
  split; [|split; [|split; [|split; [|split]]]].
  - unfold Pandas.head. rewrite length_take. unfold genres.
    by rewrite length_value_counts, dropna_Some.
  - exists (drop 10 (genres (Clean.rows df))). split; [done|].
    intros e e' He He'. rewrite Hsplit in Hsorted.
    apply (StronglySorted_app_1_elem_of _ _ _ _ _ Hsorted He He').
  - rewrite Hsplit in Hsorted. by apply StronglySorted_app_1_l in Hsorted.
  - intros g n. unfold genres. rewrite elem_of_value_counts, dropna_Some.
    rewrite <- count_of_pos, count_of_exploded_genres.
    split; [by intros [? ->] | by intros [? ->]].
  - intros Hd. split.
    + intros render w. rewrite identify_top_genres_run, Hd.
      by rewrite savefig_stdout.
    + intros w. by rewrite identify_top_genres_run, Hd.
  - intros Hd render w. by rewrite identify_top_genres_run, Hd.
Qed.

(** X8: with ten distinct release years or fewer, the Top-N Ranker leaves no
    year out: every release year of the frame is reported with the number of
    records released in it. *)
Theorem release_years_all_reported `{Pandas.Library}
    (df : Clean.frame) (r : Clean.row) (y : Z) :
  (length (Pandas.unique (Pandas.dropna (Clean.release_year <$> df))) ≤ 10)%nat →
  r ∈ df → Clean.release_year r = Some y →
  (y, length (filter (λ r', Clean.release_year r' = Some y) df))
  ∈ release_years df.
Proof.
  intros Hfew Hr Hy. unfold release_years, Pandas.head.
  rewrite take_ge by (by rewrite length_value_counts).
  apply elem_of_value_counts. rewrite count_of_dropna_fmap. split; [|done].
  apply elem_of_dropna, list_elem_of_fmap. by exists r.
Qed.

Lemma release_years_all_reported_witness :
  (2019, 1%nat)
  ∈ release_years
      (cleaned Readers.to_datetime
         [Samples.documentary; Samples.series; Samples.short_film]).
Proof.
  apply (release_years_all_reported
           (cleaned Readers.to_datetime
              [Samples.documentary; Samples.series; Samples.short_film])
           (derive Readers.to_datetime (fill_missing Samples.short_film)) 2019).
  - vm_compute. lia.
  - vm_compute. do 2 right. left.
  - reflexivity.
Defined.

Lemma top_genres_ranked_witness :
  Pandas.head 10 (genres (cleaned Readers.to_datetime
                            [Samples.series; Samples.short_film]))
  = [("Comedy", 2%nat); ("Drama", 1%nat)]
  ∧ stdout (identify_top_genres (λ _, None)
              (loaded Readers.to_datetime [Samples.series; Samples.short_film])
              {| stdout := []; files := [] |}).2
    = [ Text (nl +:+ "--- Top Genres ---"); Text "Top 10 Genres:";
        CountsByName [("Comedy", 2%nat); ("Drama", 1%nat)] ].
Proof.
  split; [reflexivity|].
  destruct (top_genres_ranked
              (loaded Readers.to_datetime [Samples.series; Samples.short_film]))
    as (_ & _ & _ & _ & Hrun & _).
  destruct Hrun as [Hout _]; [reflexivity|].
  by rewrite Hout.
Defined.

(** *** Row order and accounting *)

Section PermutationFacts.
Context {lib : Pandas.Library} {K : Type} `{EqDecision K}.

Lemma count_of_Permutation (x : K) (l1 l2 : list K) :
  l1 ≡ₚ l2 → Pandas.count_of x l1 = Pandas.count_of x l2.
Proof. intros Hp. unfold Pandas.count_of. by rewrite Hp. Qed.

Lemma unique_Permutation (l1 l2 : list K) :
  l1 ≡ₚ l2 → Pandas.unique l1 ≡ₚ Pandas.unique l2.
Proof.
  intros Hp. apply NoDup_Permutation; [apply NoDup_unique..|].
  intros x. by rewrite !elem_of_unique, Hp.
Qed.

Lemma tally_Permutation (l1 l2 : list K) :
  l1 ≡ₚ l2 → Pandas.tally l1 ≡ₚ Pandas.tally l2.
Proof.
  intros Hp. unfold Pandas.tally.
  rewrite (list_fmap_ext (λ x, (x, Pandas.count_of x l1))
             (λ x, (x, Pandas.count_of x l2)) (Pandas.unique l1)).
  - by rewrite (unique_Permutation l1 l2).
  - intros _ x _. by rewrite (count_of_Permutation x l1 l2).
Qed.

Lemma value_counts_Permutation (s1 s2 : list (option K)) :
  s1 ≡ₚ s2 → Pandas.value_counts s1 ≡ₚ Pandas.value_counts s2.
Proof.
  intros Hp. rewrite !value_counts_perm. apply tally_Permutation.
  unfold Pandas.dropna. by rewrite Hp.
Qed.

Lemma value_counts_counts_Permutation (s1 s2 : list (option K)) :
  s1 ≡ₚ s2 → (Pandas.value_counts s1).*2 = (Pandas.value_counts s2).*2.
Proof.
  intros Hp.
  assert (∀ s : list (option K),
    StronglySorted (λ a b : nat, b ≤ a)%nat ((Pandas.value_counts s).*2))
    as Hsorted.
  { intros s. apply (StronglySorted_fmap snd Pandas.descending);
      [by intros a b | apply value_counts_sorted]. }
  apply (StronglySorted_unique_strong (λ a b : nat, b ≤ a)%nat);
    [intros; lia | apply Hsorted..|].
  by rewrite (value_counts_Permutation s1 s2).
Qed.

End PermutationFacts.

Lemma groupby_size_Permutation (ks1 ks2 : list (option Z)) :
  ks1 ≡ₚ ks2 → Pandas.groupby_size ks1 = Pandas.groupby_size ks2.
Proof.
  intros Hp.
  assert (Pandas.dropna ks1 ≡ₚ Pandas.dropna ks2) as Hd
    by (unfold Pandas.dropna; by rewrite Hp).
  assert ((Pandas.groupby_size ks1).*1 = (Pandas.groupby_size ks2).*1) as Hkeys.
  { apply (StronglySorted_unique_strong Z.lt);
      [intros; lia | apply groupby_size_ascending..|].
    rewrite !groupby_size_keys, !merge_sort_Permutation.
    by apply unique_Permutation. }
  rewrite !groupby_size_keys in Hkeys.
  unfold Pandas.groupby_size. cbv zeta. rewrite Hkeys.
  apply list_fmap_ext. intros _ k _. by rewrite (count_of_Permutation k _ _ Hd).
Qed.

(** X9: the Temporal Aggregator's table does not depend on the order of the
    rows. *)
Theorem data_by_year_row_order (df1 df2 : Clean.frame) :
  df1 ≡ₚ df2 → data_by_year df1 = data_by_year df2.
Proof.
  intros Hp. unfold data_by_year. apply groupby_size_Permutation. by rewrite Hp.
Qed.

Lemma data_by_year_row_order_witness :
  data_by_year (cleaned Readers.to_datetime [Samples.series; Samples.documentary])
  = data_by_year (cleaned Readers.to_datetime [Samples.documentary; Samples.series]).
Proof.
  apply data_by_year_row_order. vm_compute. apply Permutation_swap.
Defined.

(** X10: the Category Counter and the Top-N Ranker's ranking hold the same
    entries whatever the order of the rows, and the Category Counter prints
    the same column of counts: only which of two categories with equal counts
    comes first depends on the order of the rows. *)
Theorem counts_row_order `{Pandas.Library} (df1 df2 : Clean.frame) :
  df1 ≡ₚ df2 →
  type_counts df1 ≡ₚ type_counts df2
  ∧ (type_counts df1).*2 = (type_counts df2).*2
  ∧ Pandas.value_counts (Clean.release_year <$> df1)
    ≡ₚ Pandas.value_counts (Clean.release_year <$> df2).
Proof.
  intros Hp. unfold type_counts. split; [|split].
  - apply value_counts_Permutation. by rewrite Hp.
  - apply value_counts_counts_Permutation. by rewrite Hp.
  - apply value_counts_Permutation. by rewrite Hp.
Qed.

Lemma counts_row_order_witness :
  (type_counts
     (cleaned Readers.to_datetime [Samples.series; Samples.documentary])).*2
  = (type_counts
       (cleaned Readers.to_datetime [Samples.documentary; Samples.series])).*2
  ∧ type_counts (cleaned Readers.to_datetime [Samples.series; Samples.documentary])
    ≠ type_counts (cleaned Readers.to_datetime [Samples.documentary; Samples.series]).
Proof.
  split; [|vm_compute; discriminate].
  apply (counts_row_order
           (cleaned Readers.to_datetime [Samples.series; Samples.documentary])
           (cleaned Readers.to_datetime [Samples.documentary; Samples.series])).
  vm_compute. apply Permutation_swap.
Defined.

Lemma length_filter_complement {A} (P : A → Prop) `{∀ x, Decision (P x)}
    (l : list A) :
  (length (filter P l) + length (filter (λ x, ¬ P x) l))%nat = length l.
Proof. by rewrite <- length_app, filter_app_complement. Qed.

(** X11: the reports account for every row: the per-year counts of the
    Temporal Aggregator and the number of missing year_added values add up to
    the row count of the frame, and so do the Category Counter's counts and
    the number of missing type values. *)
Theorem counts_and_missing_values `{Pandas.Library} (df : Clean.frame) :
  (sum_list ((data_by_year df).*2)
   + Pandas.isnull_sum (Clean.year_added <$> df))%nat = length df
  ∧ (sum_list ((type_counts df).*2)
     + Pandas.isnull_sum (Clean.type <$> df))%nat = length df.
Proof.
  unfold data_by_year, type_counts.
  rewrite groupby_size_sum, value_counts_sum, !length_dropna_fmap, !isnull_sum_fmap.
  split.
  - rewrite Nat.add_comm. apply length_filter_complement.
  - rewrite Nat.add_comm. apply length_filter_complement.
Qed.

Lemma length_omap_le {A B} (f : A → option B) (l : list A) :
  (length (omap f l) ≤ length l)%nat
  ∧ (length (omap f l) = length l ↔ Forall (λ a, f a ≠ None) l).
Proof.
  induction l as [|a l [IHle IHeq]]; [by split; [|split; [constructor|]]|].
  csimpl. rewrite Forall_cons. destruct (f a) as [b|]; simpl.
  - split; [lia|]. split.
    + intros Hlen. split; [done|]. apply IHeq. lia.
    + intros [_ Hall]. apply IHeq in Hall. lia.
  - split; [lia|]. split; [lia | by intros [? _]].
Qed.

(** X12: the count the Category Counter shows for "Movie" is the number of
    rows the Numeric Extractor looks at; the runtime distribution has at most
    that many values, and exactly that many if and only if the duration of
    every movie converts to a number. *)
Theorem movie_count_and_runtimes `{Pandas.Library}
    (to_numeric : string → option Q) (df : Clean.frame) :
  Pandas.count_in (type_counts df) "Movie" = length (movies df)
  ∧ (length (runtime_distribution to_numeric df) ≤ length (movies df))%nat
  ∧ (length (runtime_distribution to_numeric df) = length (movies df)
     ↔ Forall (λ r, duration_min to_numeric r ≠ None) (movies df)).
Proof.
  split.
  - unfold type_counts, movies.
    by rewrite count_in_value_counts, count_of_dropna_fmap.
  - unfold runtime_distribution. rewrite dropna_fmap. apply length_omap_le.
Qed.

Lemma movie_count_and_runtimes_witness :
  let df := cleaned Readers.to_datetime
              [Samples.documentary; Samples.series; Samples.short_film] in
  Forall (λ r, duration_min Readers.to_numeric r ≠ None) (movies df)
  ∧ length (runtime_distribution Readers.to_numeric df) = 2%nat.
Proof.
  intros df.
  assert (Forall (λ r, duration_min Readers.to_numeric r ≠ None) (movies df))
    as Hall by (subst df; vm_compute; repeat constructor; discriminate).
  split; [exact Hall|].
  destruct (movie_count_and_runtimes Readers.to_numeric df) as (_ & _ & Heq).
  by apply Heq in Hall.
Defined.

(** *** Cells without the unit or the delimiter *)

Lemma replace_scan_absent old new s :
  Str.occurs old s = false → Str.replace_scan old new O s = s.
Proof.
  induction s as [|c s IH]; [done|].
  cbn [Str.occurs Str.replace_scan].
  intros [Hstart Hrest]%orb_false_iff. rewrite Hstart. by rewrite IH.
Qed.

Lemma split_scan_absent sep acc s :
  Str.occurs sep s = false →
  Str.split_scan sep O acc s = [Str.rev_onto "" acc +:+ s].
Proof.
  revert acc. induction s as [|c s IH]; intros acc.
  - intros _. simpl. by rewrite append_nil_r.
  - cbn [Str.occurs Str.split_scan].
    intros [Hstart Hrest]%orb_false_iff. rewrite Hstart, IH by done.
    simpl. by rewrite (rev_onto_append (String c "")), append_assoc.
Qed.

Lemma split_scan_present sep acc s :
  sep ≠ "" → Str.occurs sep s = true →
  (2 ≤ length (Str.split_scan sep O acc s))%nat.
Proof.
  intros Hsep. revert acc. induction s as [|c s IH]; intros acc.
  - by rewrite occurs_empty.
  - cbn [Str.occurs Str.split_scan].
    destruct (Str.startswith sep (String c s)) eqn:Hstart.
    + intros _. simpl.
      pose proof (split_scan_length sep (Nat.pred (String.length sep)) "" s).
      lia.
    + simpl. apply IH.
Qed.

(** X13: a duration cell in which " min" does not occur reaches the number
    conversion as it stands, so a cell that is already a number is counted. *)
Theorem duration_without_unit
    (to_numeric : string → option Q) (r : Clean.row) (d : string) :
  Clean.duration r = Some d → Str.occurs " min" d = false →
  duration_min to_numeric r = to_numeric d.
Proof.
  intros Hd Hfree. rewrite duration_min_unfold, Hd. simpl.
  unfold Str.replace. by rewrite replace_scan_absent.
Qed.

Lemma duration_without_unit_witness :
  duration_min Readers.to_numeric
    (derive Readers.to_datetime
       (Raw.mk (Some "Movie") None None None (Some "January 1, 2020")
          (Some 2019) (Some "PG") (Some "104") (Some "Comedy")))
  = Some (inject_Z 104).
Proof.
  rewrite (duration_without_unit Readers.to_numeric _ "104");
    reflexivity.
Defined.

(** X14: a record lists exactly one genre if and only if the delimiter ", "
    does not occur in its genre field, and that genre is then the whole
    field. *)
Theorem one_genre_without_delimiter (r : Clean.row) (s : string) :
  Clean.listed_in r = Some s →
  (length (listed_genres r) = 1%nat ↔ Str.occurs ", " s = false)
  ∧ (Str.occurs ", " s = false → listed_genres r = [s]).
Proof.
  intros Hs. unfold listed_genres, Pandas.str_split. rewrite Hs. simpl.
  unfold Str.split. split.
  - split.
    + intros Hlen. destruct (Str.occurs ", " s) eqn:Hocc; [|done].
      pose proof (split_scan_present ", " "" s) as Htwo.
      rewrite Hlen in Htwo. by apply Htwo in Hocc; [lia|].
    + intros Hfree. by rewrite split_scan_absent.
  - intros Hfree. by rewrite split_scan_absent.
Qed.

Lemma one_genre_without_delimiter_witness :
  listed_genres (derive Readers.to_datetime (fill_missing Samples.documentary))
  = ["Documentaries"].
Proof.
  by apply (one_genre_without_delimiter
              (derive Readers.to_datetime (fill_missing Samples.documentary))
              "Documentaries").
Defined.

(** *** Nothing left after cleaning *)

Lemma filter_none {A} (P : A → Prop) `{∀ x, Decision (P x)} (l : list A) :
  Forall (λ a, ¬ P a) l → filter P l = [].
Proof.
  induction 1 as [|a l Ha _ IH]; [done|]. by rewrite filter_cons_False.
Qed.

Lemma value_counts_nil `{Pandas.Library} {K} `{EqDecision K} :
  Pandas.value_counts (@nil (option K)) = [].
Proof. apply Permutation_nil_r. apply (value_counts_perm []). Qed.

(** X15: when the date column is text and no row of the file has both a
    date and a rating, the loader returns a frame with no row, and every
    report over it is empty. *)
Theorem reports_of_nothing `{Pandas.Library}
    (to_datetime : string → option Timestamp) (to_numeric : string → option Q)
    (df : Raw.frame) :
  Pandas.read_dtype (Raw.date_added <$> df) = object →
  Forall (λ r, ¬ has_date_and_rating r) df →
  (∀ read_csv path w, read_csv path = inr df →
     (load_and_clean_data to_datetime read_csv path w).1
     = Returned (loaded to_datetime df))
  ∧ cleaned to_datetime df = []
  ∧ type_counts (cleaned to_datetime df) = []
  ∧ data_by_year (cleaned to_datetime df) = []
  ∧ genres (cleaned to_datetime df) = []
  ∧ runtime_distribution to_numeric (cleaned to_datetime df) = []
  ∧ release_years (cleaned to_datetime df) = [].
Proof.
  intros Hdate Hall. split.
  { intros read_csv path w Hread.
    by rewrite (load_and_clean_data_returns _ _ _ df). }
  rewrite cleaned_unfold, filter_none by done.
  unfold type_counts, genres, release_years, Pandas.head.
  rewrite fmap_nil. change (exploded_genres []) with (@nil string).
  rewrite !fmap_nil, !value_counts_nil. by repeat split.
Qed.

Lemma reports_of_nothing_witness :
  data_by_year (cleaned Readers.to_datetime [Samples.unrated; Samples.unrated]) = []
  ∧ (load_and_clean_data Readers.to_datetime
       (λ _, inr [Samples.unrated; Samples.unrated]) filepath
       {| stdout := []; files := [] |}).1
    = Returned (loaded Readers.to_datetime [Samples.unrated; Samples.unrated]).
Proof.
  destruct (reports_of_nothing Readers.to_datetime Readers.to_numeric
              [Samples.unrated; Samples.unrated]) as (Hrun & _ & _ & Hyear & _).
  - reflexivity.
  - repeat constructor; vm_compute; by intros [_ [? ?]].
  - split; [exact Hyear|]. by apply Hrun.
Defined.

(** ** The top level, continued *)

(** X16: when the file is read, the three columns read through [.str] are
    text and every chart is drawn, [main] returns normally, has printed the
    reports of the stages in the order of the stages with the completion line
    last, and has written the five charts under their fixed names, in stage
    order. *)
Theorem main_completes `{Pandas.Library}
    (to_datetime : string → option Timestamp) (to_numeric : string → option Q)
    (read_csv : string → exn + Raw.frame) (render : artifact → option exn)
    (df : Raw.frame) (w : world) :
  read_csv filepath = inr df →
  Pandas.read_dtype (Raw.date_added <$> df) = object →
  Pandas.read_dtype (Raw.listed_in <$> df) = object →
  Pandas.read_dtype (Raw.duration <$> df) = object →
  Forall (λ a, render a = None) (charts to_numeric (cleaned to_datetime df)) →
  (main to_datetime to_numeric read_csv render w).1 = Returned ()
  ∧ stdout (main to_datetime to_numeric read_csv render w).2
    = stdout w ++
        [ Text ("Loading data from " +:+ filepath +:+ "...");
          Text (nl +:+ "Missing values before cleaning:");
          NullCounts (raw_isnull_sum df);
          Text (nl +:+ "Missing values after cleaning:");
          NullCounts (clean_isnull_sum (cleaned to_datetime df));
          Text (nl +:+ "--- Movies vs TV Shows ---");
          CountsByName (type_counts (cleaned to_datetime df));
          Text (nl +:+ "--- Content Growth Over Time ---");
          Text (nl +:+ "--- Top Genres ---");
          Text "Top 10 Genres:";
          CountsByName (Pandas.head 10 (genres (cleaned to_datetime df)));
          Text (nl +:+ "--- Runtime Analysis ---");
          Text (nl +:+ "--- Top Release Years ---");
          CountsByYear (release_years (cleaned to_datetime df));
          Text (nl +:+ "Analysis complete. Plots saved as PNG files.") ]
  ∧ filename <$> files (main to_datetime to_numeric read_csv render w).2
    = (filename <$> files w)
      ++ [ "distribution_type.png"; "content_growth.png"; "top_genres.png";
           "movie_duration_dist.png"; "top_release_years.png" ].
Proof.
  intros Hread Hdate Hgenre Hduration Hall. unfold main.
  rewrite (main_body_success _ _ _ _ _ _ Hread Hdate Hgenre Hduration Hall).
  simpl. split; [done|]. split; [done|]. by rewrite fmap_app.
Qed.

Lemma main_completes_witness :
  (main Readers.to_datetime Readers.to_numeric
     (λ _, inr [Samples.documentary; Samples.series]) (λ _, None)
     {| stdout := []; files := [] |}).1 = Returned ().
Proof.
  apply (main_completes Readers.to_datetime Readers.to_numeric
           (λ _, inr [Samples.documentary; Samples.series]) (λ _, None)
           [Samples.documentary; Samples.series]).
  - reflexivity.
  - reflexivity.
  - reflexivity.
  - reflexivity.
  - repeat constructor.
Defined.

Ltac not_among :=
  cbn [app]; rewrite ?elem_of_cons, ?elem_of_nil;
  intros Hin; repeat (destruct Hin as [Hin|Hin]); by try discriminate Hin.

Ltac run_stage :=
  cbn -[cleaned data_by_year genres runtime_distribution release_years
        type_counts Pandas.tally Pandas.dropna Pandas.head Pandas.read_dtype
        raw_isnull_sum clean_isnull_sum].

(** X17: the completion line is printed by a run if and only if the file was
    read, the three columns read through [.str] are text and every chart was
    drawn: after a failure of any kind [main] never announces completion. *)
Theorem completion_only_on_success `{Pandas.Library}
    (to_datetime : string → option Timestamp) (to_numeric : string → option Q)
    (read_csv : string → exn + Raw.frame) (render : artifact → option exn)
    (w : world) :
  ∃ out,
    stdout (main to_datetime to_numeric read_csv render w).2 = stdout w ++ out
    ∧ (Text (nl +:+ "Analysis complete. Plots saved as PNG files.") ∈ out
       ↔ ∃ df, read_csv filepath = inr df
               ∧ Pandas.read_dtype (Raw.date_added <$> df) = object
               ∧ Pandas.read_dtype (Raw.listed_in <$> df) = object
               ∧ Pandas.read_dtype (Raw.duration <$> df) = object
               ∧ Forall (λ a, render a = None)
                   (charts to_numeric (cleaned to_datetime df))).
Proof.
  destruct (read_csv filepath) as [e|df] eqn:Hread.
  { unfold main. rewrite (main_body_read_failed _ _ _ _ _ _ Hread).
    destruct e as [m|m|m]; unfold print; simpl; eexists;
      (split; [by rewrite <- ?app_assoc|]);
      (split; [not_among | by intros (df & ? & _)]). }
  destruct (Pandas.read_dtype (Raw.date_added <$> df)) eqn:Hdate; cycle 1.
  { unfold main. rewrite (main_body_no_date _ _ _ _ _ _ Hread Hdate).
    unfold print. simpl. eexists. split; [by rewrite <- ?app_assoc|].
    split; [not_among|].
    intros (df' & Hinj & Hd & _). injection Hinj as <-. congruence. }
  destruct (decide (Pandas.read_dtype (Raw.listed_in <$> df) = object
                    ∧ Pandas.read_dtype (Raw.duration <$> df) = object
                    ∧ Forall (λ a, render a = None)
                        (charts to_numeric (cleaned to_datetime df))))
    as [(Hgenre & Hduration & Hall)|Hfail].
  { unfold main.
    rewrite (main_body_success _ _ _ _ _ _ Hread Hdate Hgenre Hduration Hall).
    simpl. eexists. split; [done|]. split; [by exists df|].
    intros _. do 14 right. left. }
  assert (¬ ∃ df', @inr exn Raw.frame df = inr df'
            ∧ Pandas.read_dtype (Raw.date_added <$> df') = object
            ∧ Pandas.read_dtype (Raw.listed_in <$> df') = object
            ∧ Pandas.read_dtype (Raw.duration <$> df') = object
            ∧ Forall (λ a, render a = None)
                (charts to_numeric (cleaned to_datetime df'))) as Hnot.
  { intros (df' & Hinj & _ & Hg & Hd & Hall). injection Hinj as <-.
    by apply Hfail. }
  unfold charts in Hfail. rewrite !Forall_cons in Hfail.
  unfold main. rewrite (main_body_loaded _ _ _ _ df w Hread Hdate).
  unfold analyze_movies_vs_tv_shows, analyze_content_growth,
    identify_top_genres, analyze_runtime, analyze_release_years, str_accessor.
  unfold mbind, M_bind, mret, M_ret, print, raise, savefig.
  unfold loaded. run_stage.
  repeat (
    match goal with
    | |- context [render ?a] => destruct (render a) as [[m|m|m]|] eqn:?
    | |- context [Pandas.read_dtype ?c] =>
        destruct (Pandas.read_dtype c) eqn:?
    end;
    run_stage;
    try (eexists; (split; [by rewrite <- ?app_assoc|]);
         split; [not_among | by intros ?]));
  exfalso; apply Hfail; by repeat split.
Qed.

(** X18: an exception that is not an [Exception] is met by neither handler:
    [main] raises an exception exactly when the [try] block raised one of
    that kind, it is that exception, and nothing is printed or written after
    it. *)
Theorem main_lets_others_through `{Pandas.Library}
    (to_datetime : string → option Timestamp) (to_numeric : string → option Q)
    (read_csv : string → exn + Raw.frame) (render : artifact → option exn)
    (w : world) (e : exn) :
  ((main to_datetime to_numeric read_csv render w).1 = Raised e
   ↔ (∃ m, e = NotAnException m)
     ∧ (main_body to_datetime to_numeric read_csv render w).1 = Raised e)
  ∧ ((main to_datetime to_numeric read_csv render w).1 = Raised e →
     main to_datetime to_numeric read_csv render w
     = main_body to_datetime to_numeric read_csv render w)
  ∧ (∀ m, read_csv filepath = inl (NotAnException m) →
       main to_datetime to_numeric read_csv render w
       = (Raised (NotAnException m),
          {| stdout := stdout w
                       ++ [Text ("Loading data from " +:+ filepath +:+ "...")];
             files := files w |})).
Proof.
  split; [|split].
  - unfold main.
    destruct (main_body _ _ _ _ w) as [[[]|[m|m|m]] w1]; simpl; split;
      try done; try (by intros [[? ->] ?]).
    intros [= <-]. split; [by exists m | done].
  - unfold main.
    by destruct (main_body _ _ _ _ w) as [[[]|[m|m|m]] w1].
  - intros m Hread. unfold main.
    by rewrite (main_body_read_failed _ _ _ _ _ _ Hread).
Qed.

Lemma main_lets_others_through_witness :
  (main Readers.to_datetime Readers.to_numeric
     (λ _, inl (NotAnException "KeyboardInterrupt")) (λ _, None)
     {| stdout := []; files := [] |}).1
  = Raised (NotAnException "KeyboardInterrupt").
Proof.
  destruct (main_lets_others_through Readers.to_datetime Readers.to_numeric
              (λ _, inl (NotAnException "KeyboardInterrupt")) (λ _, None)
              {| stdout := []; files := [] |}
              (NotAnException "KeyboardInterrupt")) as (_ & _ & Hread).
  by rewrite (Hread "KeyboardInterrupt").
Defined.

(** X19: the number of rows the cleaner drops lies between each of the
    numbers of missing date_added and rating values reported before cleaning
    and their sum. *)
Theorem dropped_rows_and_missing_values
    (to_datetime : string → option Timestamp) (df : Raw.frame) :
  (length (cleaned to_datetime df)
   + Pandas.isnull_sum (Raw.date_added <$> df) ≤ length df)%nat
  ∧ (length (cleaned to_datetime df)
     + Pandas.isnull_sum (Raw.rating <$> df) ≤ length df)%nat
  ∧ (length df
     ≤ length (cleaned to_datetime df)
       + Pandas.isnull_sum (Raw.date_added <$> df)
       + Pandas.isnull_sum (Raw.rating <$> df))%nat
  ∧ ("date_added", Pandas.isnull_sum (Raw.date_added <$> df)) ∈ raw_isnull_sum df
  ∧ ("rating", Pandas.isnull_sum (Raw.rating <$> df)) ∈ raw_isnull_sum df.
Proof.
  rewrite cleaned_unfold, length_fmap, !isnull_sum_fmap.
  split; [|split; [|split; [|split]]];
    [| | |unfold raw_isnull_sum; rewrite !isnull_sum_fmap; set_solver..];
    induction df as [|r df IH]; try done;
    rewrite !filter_cons; repeat case_decide; simpl in *; try lia;
    exfalso; unfold has_date_and_rating in *;
    destruct (Raw.date_added r), (Raw.rating r); naive_solver.
Qed.

Lemma completion_only_on_success_witness :
  ∃ out,
    stdout (main Readers.to_datetime Readers.to_numeric
              (λ _, inl (OtherException "EmptyDataError")) (λ _, None)
              {| stdout := []; files := [] |}).2 = out
    ∧ Text (nl +:+ "Analysis complete. Plots saved as PNG files.") ∉ out.
Proof.
  destruct (completion_only_on_success Readers.to_datetime Readers.to_numeric
              (λ _, inl (OtherException "EmptyDataError")) (λ _, None)
              {| stdout := []; files := [] |}) as (out & Hout & Hiff).
  exists out. split; [exact Hout|].
  intros Hin. apply Hiff in Hin as (df & Hdf & _). discriminate Hdf.
Defined.
